(** * Colne storefront: order list, product card and report generator

    A shallow embedding of the logic of three React components

    - [OrdersPage]    (order list: filtering, pagination, status update),
    - [ProductCard]   (wishlist toggle, add to cart),
    - [QuickActions]  (CSV report generator),

    followed by the properties of the specification that concern them.

    Conventions.  JavaScript strings are [string]s, that is sequences of
    code units below 256 (Basic Latin and Latin-1; text with other code
    units is outside this development), [Array]s are [list]s,
    array lengths and indices handed to [slice] are integers ([Z]),
    amounts (JavaScript [number]s that are only stored and printed) are
    binary64 floats.  Event handlers are programs of a small free monad
    ([Prog]) whose operations are the effects the handlers perform: a
    remote call that is awaited, a toast, a React state update, a console
    line and a file download; [throw], [try/catch] and [finally] are part
    of the monad. *)

From Stdlib Require Import ZArith QArith Qround Lia List Bool Ascii String.
From Stdlib Require Import Permutation.
From Stdlib Require Import Floats.SpecFloat.
From ExtLib Require Import Structures.Monad Structures.MonadExc.
Import ListNotations.
Import MonadNotation.

Local Open Scope string_scope.
Local Open Scope list_scope.
Local Open Scope Z_scope.
Local Open Scope monad_scope.

(** JavaScript [number]: a binary64 value, by sign, mantissa and
    exponent. *)
Definition number : Set := spec_float.

(* ===================================================================== *)
(** * JavaScript built-ins used by the components                         *)
(* ===================================================================== *)

Module Js.

(** [String.prototype.toLowerCase], on the code units a [string] holds
    here (0 to 255).  There the mapping works unit by unit: U+0041 to
    U+005A (A-Z), U+00C0 to U+00D6 and U+00D8 to U+00DE (the accented
    capitals, the multiplication sign U+00D7 left out) go to the unit 32
    above; every other unit stays. *)
Definition lower_char (c : ascii) : ascii :=
  let n := nat_of_ascii c in
  if (((65 <=? n)%nat && (n <=? 90)%nat)
      || ((192 <=? n)%nat && (n <=? 214)%nat)
      || ((216 <=? n)%nat && (n <=? 222)%nat))%bool
  then ascii_of_nat (n + 32) else c.

Fixpoint toLowerCase (s : string) : string :=
  match s with
  | EmptyString => EmptyString
  | String c s' => String (lower_char c) (toLowerCase s')
  end.

(** [s.startsWith(t)] *)
Fixpoint startsWith (s t : string) {struct t} : bool :=
  match t, s with
  | EmptyString, _ => true
  | String _ _, EmptyString => false
  | String b t', String a s' => (Ascii.eqb a b && startsWith s' t')%bool
  end.

(** [s.includes(t)]: [t] occurs in [s] at some position. *)
Fixpoint includes (s t : string) : bool :=
  (startsWith s t ||
   match s with
   | EmptyString => false
   | String _ s' => includes s' t
   end)%bool.

(** [Array.prototype.join] *)
Fixpoint join (sep : string) (l : list string) : string :=
  match l with
  | [] => ""
  | [x] => x
  | x :: rest => (x ++ sep ++ join sep rest)%string
  end.

(** [s.split(sep)] for a one-character separator. *)
Fixpoint split_on (sep : ascii) (s : string) : list string :=
  match s with
  | EmptyString => [""]
  | String c s' =>
      if Ascii.eqb c sep then "" :: split_on sep s'
      else match split_on sep s' with
           | [] => [String c ""]
           | w :: ws => String c w :: ws
           end
  end.

(** [Array.prototype.slice(start, end)], with the clamping of the
    language standard: a negative index counts from the end, and both
    ends are clamped to [0, length]. *)
Definition relative_index (len i : Z) : Z :=
  if i <? 0 then Z.max (len + i) 0 else Z.min i len.

Definition slice {A : Type} (l : list A) (start end_ : Z) : list A :=
  let len := Z.of_nat (List.length l) in
  let k := relative_index len start in
  let final := relative_index len end_ in
  firstn (Z.to_nat (Z.max (final - k) 0)) (skipn (Z.to_nat k) l).

(** [Math.ceil], on an exact quotient. *)
Definition Math_ceil (q : Q) : Z := Qceiling q.

(** [Array.from({ length: n }, (_, i) => f i)] *)
Definition Array_from {A : Type} (n : Z) (f : Z -> A) : list A :=
  map (fun i => f (Z.of_nat i)) (seq 0 (Z.to_nat n)).

(** [a || b] on strings: the empty string is falsy. *)
Definition or_else (a b : string) : string :=
  match a with EmptyString => b | _ => a end.

End Js.

(* ===================================================================== *)
(** * Data model                                                          *)
(* ===================================================================== *)

Record OrderItem := {
  item_id : Z;
  item_name : string;
  item_price : number;
  item_quantity : Z
}.

Record ShippingAddress := {
  line1 : string;
  line2 : option string;
  city : string;
  state : string;
  postal_code : string
}.

Inductive OrderStatus := pending | processing | shipped | completed | cancelled.

Definition OrderStatus_eqb (a b : OrderStatus) : bool :=
  match a, b with
  | pending, pending | processing, processing | shipped, shipped
  | completed, completed | cancelled, cancelled => true
  | _, _ => false
  end.

(** The string a status is at run time. *)
Definition status_text (s : OrderStatus) : string :=
  match s with
  | pending => "pending"
  | processing => "processing"
  | shipped => "shipped"
  | completed => "completed"
  | cancelled => "cancelled"
  end.

Record Order := {
  id : string;
  customer_name : string;
  customer_email : string;
  order_date : string;
  status : OrderStatus;
  total_amount : number;
  items : list OrderItem;
  shipping_address : ShippingAddress
}.

(** [{ ...order, status: s }] *)
Definition with_status (order : Order) (s : OrderStatus) : Order :=
  {| id := id order;
     customer_name := customer_name order;
     customer_email := customer_email order;
     order_date := order_date order;
     status := s;
     total_amount := total_amount order;
     items := items order;
     shipping_address := shipping_address order |}.

(** [OrderStatus | 'all'] *)
Inductive StatusFilter := all | only (s : OrderStatus).

(* ===================================================================== *)
(** * Effects of an event handler                                         *)
(* ===================================================================== *)

(** The options object handed to [toast]. *)
Inductive Variant := default | destructive | success.

Record ToastOptions := {
  title : string;
  description : string;
  variant : option Variant
}.

(** A thrown value: the handlers only ever read its [message]. *)
Record JsError := { message : string }.

(** The [{ data, error }] object a query of the remote client resolves to. *)
Module Postgrest.
Record Response (T : Type) := { data : option T; error : option JsError }.
Arguments data {T} _.
Arguments error {T} _.
End Postgrest.

Record OrderReportData := {
  report_id : string;
  report_customer_name : string;
  report_customer_email : string;
  report_order_date : string;
  report_status : string;
  report_total_amount : number
}.

Record WishlistRow := { wishlist_user_id : string; wishlist_product_id : Z }.

Record CartItem := { cart_user_id : string; cart_product_id : Z; quantity : Z }.

(** The queries the components build on the remote client. *)
Inductive RemoteCall :=
| orders_select_all
    (* from('orders').select('*') *)
| orders_update_status (orderId : string) (newStatus : OrderStatus)
    (* from('orders').update({ status }).eq('id', orderId).select() *)
| orders_select_report
    (* from('orders').select('id, customer_name, ..., total_amount') *)
| wishlist_select (user_id : string) (product_id : Z)
    (* from('wishlist').select('product_id').eq(..).eq(..).maybeSingle() *)
| wishlist_delete (user_id : string) (product_id : Z)
    (* from('wishlist').delete().match({ user_id, product_id }) *)
| wishlist_insert (user_id : string) (product_id : Z)
    (* from('wishlist').insert([{ user_id, product_id }]) *)
| cart_items_select (user_id : string) (product_id : Z)
    (* from('cart_items').select('product_id').eq(..).eq(..).maybeSingle() *)
| cart_items_insert (user_id : string) (product_id : Z) (quantity : Z).
    (* from('cart_items').insert([{ user_id, product_id, quantity }]) *)

(** What [data] holds when the query succeeds. *)
Definition payload (c : RemoteCall) : Type :=
  match c with
  | orders_select_all | orders_update_status _ _ => list Order
  | orders_select_report => list OrderReportData
  | wishlist_select _ _ | cart_items_select _ _ => Z
  | wishlist_delete _ _ | wishlist_insert _ _ | cart_items_insert _ _ _ => unit
  end.

Definition is_mutation (c : RemoteCall) : bool :=
  match c with
  | orders_update_status _ _ | wishlist_delete _ _ | wishlist_insert _ _
  | cart_items_insert _ _ _ => true
  | _ => false
  end.

Definition is_insert (c : RemoteCall) : bool :=
  match c with
  | wishlist_insert _ _ | cart_items_insert _ _ _ => true
  | _ => false
  end.

Definition is_delete (c : RemoteCall) : bool :=
  match c with
  | wishlist_delete _ _ => true
  | _ => false
  end.

(** The file a handler offers for download: the [Blob] and the anchor's
    [download] attribute. *)
Record Download := {
  blob_text : string;
  blob_type : string;
  download_name : string
}.

(** Programs over a component state [S] returning an [A]. *)
Inductive Prog (S A : Type) : Type :=
| Ret (a : A)
| Throw (e : JsError)
| Await (c : RemoteCall) (k : Postgrest.Response (payload c) -> Prog S A)
| Toast (t : ToastOptions) (k : Prog S A)
| SetState (f : S -> S) (k : Prog S A)
| ConsoleError (line : string) (k : Prog S A)
| SaveFile (d : Download) (k : Prog S A).

Arguments Ret {S A} _.
Arguments Throw {S A} _.
Arguments Await {S A} _ _.
Arguments Toast {S A} _ _.
Arguments SetState {S A} _ _.
Arguments ConsoleError {S A} _ _.
Arguments SaveFile {S A} _ _.

Section ProgMonad.

Context {S : Type}.

Fixpoint Prog_bind {A B : Type} (p : Prog S A) (f : A -> Prog S B) : Prog S B :=
  match p with
  | Ret a => f a
  | Throw e => Throw e
  | Await c k => Await c (fun r => Prog_bind (k r) f)
  | Toast t k => Toast t (Prog_bind k f)
  | SetState g k => SetState g (Prog_bind k f)
  | ConsoleError l k => ConsoleError l (Prog_bind k f)
  | SaveFile d k => SaveFile d (Prog_bind k f)
  end.

(** [try { p } catch (e) { handler e }] *)
Fixpoint Prog_catch {A : Type} (p : Prog S A) (handler : JsError -> Prog S A) : Prog S A :=
  match p with
  | Ret a => Ret a
  | Throw e => handler e
  | Await c k => Await c (fun r => Prog_catch (k r) handler)
  | Toast t k => Toast t (Prog_catch k handler)
  | SetState g k => SetState g (Prog_catch k handler)
  | ConsoleError l k => ConsoleError l (Prog_catch k handler)
  | SaveFile d k => SaveFile d (Prog_catch k handler)
  end.

(** [try { p } finally { fin }]: [fin] runs on both exits of [p]. *)
Fixpoint finally {A : Type} (p : Prog S A) (fin : Prog S unit) : Prog S A :=
  match p with
  | Ret a => Prog_bind fin (fun _ => Ret a)
  | Throw e => Prog_bind fin (fun _ => Throw e)
  | Await c k => Await c (fun r => finally (k r) fin)
  | Toast t k => Toast t (finally k fin)
  | SetState g k => SetState g (finally k fin)
  | ConsoleError l k => ConsoleError l (finally k fin)
  | SaveFile d k => SaveFile d (finally k fin)
  end.

#[global] Instance Monad_Prog : Monad (Prog S) :=
  {| ret := fun _ a => Ret a;
     bind := fun _ _ p f => Prog_bind p f |}.

#[global] Instance Exc_Prog : MonadExc JsError (Prog S) :=
  {| raise := fun _ e => Throw e;
     catch := fun _ p handler => Prog_catch p handler |}.

Definition await (c : RemoteCall) : Prog S (Postgrest.Response (payload c)) :=
  Await c Ret.
Definition toast (t : ToastOptions) : Prog S unit := Toast t (Ret tt).
Definition setState (f : S -> S) : Prog S unit := SetState f (Ret tt).
Definition console_error (line : string) : Prog S unit := ConsoleError line (Ret tt).
Definition saveFile (d : Download) : Prog S unit := SaveFile d (Ret tt).

(** [if (error) throw error;] *)
Definition throw_if (error : option JsError) : Prog S unit :=
  match error with
  | Some e => Throw e
  | None => Ret tt
  end.

(** [Array.prototype.map] with a callback that may throw. *)
Fixpoint Array_map {A B : Type} (f : A -> Prog S B) (l : list A) : Prog S (list B) :=
  match l with
  | [] => Ret []
  | x :: rest =>
      Prog_bind (f x) (fun y => Prog_bind (Array_map f rest) (fun ys => Ret (y :: ys)))
  end.

End ProgMonad.

(** ** Running a handler *)

(** The remote service, as the client sees it. *)
Class Backend (B : Type) :=
  serve : forall c : RemoteCall, B -> Postgrest.Response (payload c) * B.

(** What a run can be observed to have done: the service behind the
    client, the component state, and the logs of toasts, requests,
    console lines and downloads, oldest first. *)
Record World (B S : Type) := {
  backend : B;
  ui : S;
  toasts : list ToastOptions;
  requests : list RemoteCall;
  console : list string;
  downloads : list Download
}.

Arguments backend {B S} _.
Arguments ui {B S} _.
Arguments toasts {B S} _.
Arguments requests {B S} _.
Arguments console {B S} _.
Arguments downloads {B S} _.

Section Run.

Context {B : Type} `{Backend B} {S : Type}.

Fixpoint run {A : Type} (p : Prog S A) (w : World B S) : (JsError + A) * World B S :=
  match p with
  | Ret a => (inr a, w)
  | Throw e => (inl e, w)
  | Await c k =>
      let (r, b) := serve c (backend w) in
      run (k r)
        {| backend := b; ui := ui w; toasts := toasts w;
           requests := requests w ++ [c]; console := console w;
           downloads := downloads w |}
  | Toast t k =>
      run k
        {| backend := backend w; ui := ui w; toasts := toasts w ++ [t];
           requests := requests w; console := console w;
           downloads := downloads w |}
  | SetState f k =>
      run k
        {| backend := backend w; ui := f (ui w); toasts := toasts w;
           requests := requests w; console := console w;
           downloads := downloads w |}
  | ConsoleError l k =>
      run k
        {| backend := backend w; ui := ui w; toasts := toasts w;
           requests := requests w; console := console w ++ [l];
           downloads := downloads w |}
  | SaveFile d k =>
      run k
        {| backend := backend w; ui := ui w; toasts := toasts w;
           requests := requests w; console := console w;
           downloads := downloads w ++ [d] |}
  end.

(** A click: the handler of the current render (it closes over the
    current state) runs to completion. *)
Definition click (handler : S -> Prog S unit) (w : World B S) : World B S :=
  snd (run (handler (ui w)) w).

End Run.

(* ===================================================================== *)
(** * OrdersPage                                                          *)
(* ===================================================================== *)

Module OrdersPage.

Definition ordersPerPage : Z := 10.

Definition matchesSearch (searchTerm : string) (order : Order) : bool :=
  Js.includes (Js.toLowerCase (id order)) (Js.toLowerCase searchTerm)
  || Js.includes (Js.toLowerCase (customer_name order)) (Js.toLowerCase searchTerm)
  || Js.includes (Js.toLowerCase (customer_email order)) (Js.toLowerCase searchTerm).

Definition matchesStatus (statusFilter : StatusFilter) (order : Order) : bool :=
  match statusFilter with
  | all => true
  | only s => OrderStatus_eqb (status order) s
  end.

Definition filteredOrders (orders : list Order) (searchTerm : string)
    (statusFilter : StatusFilter) : list Order :=
  filter (fun order => matchesSearch searchTerm order && matchesStatus statusFilter order)
         orders.

Definition indexOfLastOrder (currentPage : Z) : Z := currentPage * ordersPerPage.
Definition indexOfFirstOrder (currentPage : Z) : Z :=
  indexOfLastOrder currentPage - ordersPerPage.

Definition currentOrders (filtered : list Order) (currentPage : Z) : list Order :=
  Js.slice filtered (indexOfFirstOrder currentPage) (indexOfLastOrder currentPage).

(** The quotient of a length by 10 is taken exactly: a length is far
    below the integers a [number] stops representing. *)
Definition pageCount (filtered : list Order) : Z :=
  Js.Math_ceil (inject_Z (Z.of_nat (List.length filtered)) / inject_Z ordersPerPage).

(** The number on the [i]-th page link, or [None] where the callback
    returns [null]. *)
Definition pageNumber (currentPage pageCount i : Z) : option Z :=
  let pageNumber := Z.max 1 (Z.min (currentPage - 2 + i) pageCount) in
  if pageNumber >? pageCount then None else Some pageNumber.

(** The page links of a render, left to right; React renders nothing for
    [null], and the whole pagination bar only when there are orders. *)
Definition pageLinks (filtered : list Order) (currentPage : Z) : list Z :=
  if Z.of_nat (List.length filtered) >? 0 then
    flat_map (fun o => match o with Some n => [n] | None => [] end)
      (Js.Array_from (Z.min 5 (pageCount filtered))
         (pageNumber currentPage (pageCount filtered)))
  else [].

(** The [useState] cells of the component. *)
Record State := {
  orders : list Order;
  isLoading : bool;
  error : option string;
  searchTerm : string;
  statusFilter : StatusFilter;
  currentPage : Z;
  selectedOrder : option Order;
  isViewModalOpen : bool
}.

Definition setOrders (l : list Order) : Prog State unit :=
  setState (fun s =>
    {| orders := l; isLoading := isLoading s; error := error s;
       searchTerm := searchTerm s; statusFilter := statusFilter s;
       currentPage := currentPage s; selectedOrder := selectedOrder s;
       isViewModalOpen := isViewModalOpen s |}).

Definition status_updated (orderId : string) (newStatus : OrderStatus) : ToastOptions :=
  {| title := "Order status updated";
     description := "Order " ++ orderId ++ " status changed to " ++ status_text newStatus;
     variant := None |}.

Definition status_not_updated : ToastOptions :=
  {| title := "Failed to update status";
     description := "Order not found or no changes made.";
     variant := Some destructive |}.

Definition status_update_error (err : JsError) : ToastOptions :=
  {| title := "Error updating status";
     description := Js.or_else (message err) "An unexpected error occurred.";
     variant := Some destructive |}.

(** [updateOrderStatus], as the closure of a render whose [orders] cell
    holds [orders]. *)
Definition updateOrderStatus (orders : list Order) (orderId : string)
    (newStatus : OrderStatus) : Prog State unit :=
  catch
    (r <- await (orders_update_status orderId newStatus) ;;
     throw_if (Postgrest.error r) ;;
     match Postgrest.data r with
     | Some (updatedOrder :: _) =>
         let updatedOrders :=
           map (fun order =>
                  if String.eqb (id order) orderId
                  then with_status order (status updatedOrder)
                  else order)
               orders in
         setOrders updatedOrders ;;
         toast (status_updated orderId newStatus)
     | _ => toast status_not_updated
     end)
    (fun err => toast (status_update_error err)).

Section Clicks.

Context {B : Type} `{Backend B}.

(** A click on a status menu entry of the row of [orderId]. *)
Definition statusMenuClick (orderId : string) (newStatus : OrderStatus)
    (w : World B State) : World B State :=
  click (fun st => updateOrderStatus (orders st) orderId newStatus) w.

(** What the update resolves to when sent from [w]. *)
Definition statusUpdateReply (orderId : string) (newStatus : OrderStatus)
    (w : World B State) : Postgrest.Response (list Order) :=
  fst (serve (orders_update_status orderId newStatus) (backend w)).

End Clicks.

(** ** The other handlers and derived values of the page *)

(** [setCurrentPage(prev => f(prev))] *)
Definition setCurrentPage (f : Z -> Z) : Prog State unit :=
  setState (fun s =>
    {| orders := orders s; isLoading := isLoading s; error := error s;
       searchTerm := searchTerm s; statusFilter := statusFilter s;
       currentPage := f (currentPage s); selectedOrder := selectedOrder s;
       isViewModalOpen := isViewModalOpen s |}).

Definition setSearchTerm (value : string) : Prog State unit :=
  setState (fun s =>
    {| orders := orders s; isLoading := isLoading s; error := error s;
       searchTerm := value; statusFilter := statusFilter s;
       currentPage := currentPage s; selectedOrder := selectedOrder s;
       isViewModalOpen := isViewModalOpen s |}).

Definition setStatusFilter (value : StatusFilter) : Prog State unit :=
  setState (fun s =>
    {| orders := orders s; isLoading := isLoading s; error := error s;
       searchTerm := searchTerm s; statusFilter := value;
       currentPage := currentPage s; selectedOrder := selectedOrder s;
       isViewModalOpen := isViewModalOpen s |}).

Definition setSelectedOrder (value : option Order) : Prog State unit :=
  setState (fun s =>
    {| orders := orders s; isLoading := isLoading s; error := error s;
       searchTerm := searchTerm s; statusFilter := statusFilter s;
       currentPage := currentPage s; selectedOrder := value;
       isViewModalOpen := isViewModalOpen s |}).

Definition setIsViewModalOpen (value : bool) : Prog State unit :=
  setState (fun s =>
    {| orders := orders s; isLoading := isLoading s; error := error s;
       searchTerm := searchTerm s; statusFilter := statusFilter s;
       currentPage := currentPage s; selectedOrder := selectedOrder s;
       isViewModalOpen := value |}).

(** [viewOrder] *)
Definition viewOrder (order : Order) : Prog State unit :=
  setSelectedOrder (Some order) ;;
  setIsViewModalOpen true.

(** The [onClick] of "Previous", of "Next" (which closes over the page
    count of its render) and of a page link. *)
Definition previousPage : Prog State unit :=
  setCurrentPage (fun prev => Z.max (prev - 1) 1).

Definition nextPage (pageCount : Z) : Prog State unit :=
  setCurrentPage (fun prev => Z.min (prev + 1) pageCount).

Definition goToPage (pageNumber : Z) : Prog State unit :=
  setCurrentPage (fun _ => pageNumber).

(** The derived values of the render of a state. *)
Definition filtered (st : State) : list Order :=
  filteredOrders (orders st) (searchTerm st) (statusFilter st).

Definition rows (st : State) : list Order :=
  currentOrders (filtered st) (currentPage st).

Definition links (st : State) : list Z :=
  pageLinks (filtered st) (currentPage st).

(** The entries of the status menu of a row: the status an entry asks
    for and its [disabled] flag. *)
Definition statusMenu (order : Order) : list (OrderStatus * bool) :=
  [(pending, OrderStatus_eqb (status order) pending);
   (processing, OrderStatus_eqb (status order) processing);
   (shipped, OrderStatus_eqb (status order) shipped);
   (completed, OrderStatus_eqb (status order) completed);
   (cancelled, OrderStatus_eqb (status order) cancelled)].

(** What [getStatusBadge] renders: the class names and the text of the
    badge. *)
Record Badge := { className : string; label : string }.

Definition getStatusBadge (status : OrderStatus) : Badge :=
  match status with
  | pending =>
      {| className := "bg-yellow-50 text-yellow-700 hover:bg-yellow-50"; label := "Pending" |}
  | processing =>
      {| className := "bg-blue-50 text-blue-700 hover:bg-blue-50"; label := "Processing" |}
  | shipped =>
      {| className := "bg-purple-50 text-purple-700 hover:bg-purple-50"; label := "Shipped" |}
  | completed =>
      {| className := "bg-green-50 text-green-700 hover:bg-green-50"; label := "Completed" |}
  | cancelled =>
      {| className := "bg-red-50 text-red-700 hover:bg-red-50"; label := "Cancelled" |}
  end.

Section MoreClicks.

Context {B : Type} `{Backend B}.

Definition previousClick (w : World B State) : World B State :=
  click (fun _ => previousPage) w.

Definition nextClick (w : World B State) : World B State :=
  click (fun st => nextPage (pageCount (filtered st))) w.

Definition linkClick (pageNumber : Z) (w : World B State) : World B State :=
  click (fun _ => goToPage pageNumber) w.

Definition viewClick (order : Order) (w : World B State) : World B State :=
  click (fun _ => viewOrder order) w.

(** Typing in the search box and choosing an entry of the filter menu. *)
Definition searchInput (value : string) (w : World B State) : World B State :=
  click (fun _ => setSearchTerm value) w.

Definition filterClick (value : StatusFilter) (w : World B State) : World B State :=
  click (fun _ => setStatusFilter value) w.

End MoreClicks.

End OrdersPage.

(* ===================================================================== *)
(** * ProductCard                                                         *)
(* ===================================================================== *)

Module AuthContext.
Record User := { id : string }.
End AuthContext.

Module ProductCard.

Record Props := {
  id : Z;
  name : string;
  price : number;
  discount : number;
  image : string;
  category : string;
  inStock : bool;
  rating : option number;
  salesCount : option number
}.

Record State := {
  isWishlisted : bool;
  isLoadingWishlist : bool;
  isAddingToCart : bool
}.

Definition setIsWishlisted (b : bool) : Prog State unit :=
  setState (fun s =>
    {| isWishlisted := b; isLoadingWishlist := isLoadingWishlist s;
       isAddingToCart := isAddingToCart s |}).

Definition setIsLoadingWishlist (b : bool) : Prog State unit :=
  setState (fun s =>
    {| isWishlisted := isWishlisted s; isLoadingWishlist := b;
       isAddingToCart := isAddingToCart s |}).

Definition setIsAddingToCart (b : bool) : Prog State unit :=
  setState (fun s =>
    {| isWishlisted := isWishlisted s; isLoadingWishlist := isLoadingWishlist s;
       isAddingToCart := b |}).

Definition login_required (what : string) : ToastOptions :=
  {| title := "Login Required";
     description := "Please log in to add items to your " ++ what ++ ".";
     variant := Some destructive |}.

Definition removed_from_wishlist (props : Props) : ToastOptions :=
  {| title := "Removed from Wishlist";
     description := name props ++ " has been removed from your wishlist.";
     variant := None |}.

Definition added_to_wishlist (props : Props) : ToastOptions :=
  {| title := "Added to Wishlist";
     description := name props ++ " has been added to your wishlist.";
     variant := Some success |}.

Definition wishlist_error (error : JsError) : ToastOptions :=
  {| title := "Error Updating Wishlist";
     description := Js.or_else (message error) "An unexpected error occurred.";
     variant := Some destructive |}.

Definition out_of_stock : ToastOptions :=
  {| title := "Out of Stock";
     description := "This product is currently out of stock.";
     variant := Some destructive |}.

Definition already_in_cart (props : Props) : ToastOptions :=
  {| title := "Already in Cart";
     description := name props ++ " is already in your cart.";
     variant := None |}.

Definition added_to_cart (props : Props) : ToastOptions :=
  {| title := "Added to Cart";
     description := name props ++ " has been added to your cart.";
     variant := Some success |}.

Definition cart_error (error : JsError) : ToastOptions :=
  {| title := "Error Adding to Cart";
     description := Js.or_else (message error) "An unexpected error occurred.";
     variant := Some destructive |}.

(** [handleToggleWishlist], as the closure of a render with state [st]. *)
Definition handleToggleWishlist (props : Props) (user : option AuthContext.User)
    (st : State) : Prog State unit :=
  match user with
  | None => toast (login_required "wishlist")
  | Some user =>
      setIsLoadingWishlist true ;;
      finally
        (catch
           (if isWishlisted st then
              r <- await (wishlist_delete (AuthContext.id user) (id props)) ;;
              throw_if (Postgrest.error r) ;;
              setIsWishlisted false ;;
              toast (removed_from_wishlist props)
            else
              r <- await (wishlist_insert (AuthContext.id user) (id props)) ;;
              throw_if (Postgrest.error r) ;;
              setIsWishlisted true ;;
              toast (added_to_wishlist props))
           (fun error => toast (wishlist_error error)))
        (setIsLoadingWishlist false)
  end.

(** [handleAddToCart] *)
Definition handleAddToCart (props : Props) (user : option AuthContext.User)
    (st : State) : Prog State unit :=
  match user with
  | None => toast (login_required "cart")
  | Some user =>
      if negb (inStock props) then toast out_of_stock
      else
        setIsAddingToCart true ;;
        finally
          (catch
             (existing <- await (cart_items_select (AuthContext.id user) (id props)) ;;
              throw_if (Postgrest.error existing) ;;
              match Postgrest.data existing with
              | Some existingCartItem => toast (already_in_cart props)
              | None =>
                  inserted <- await (cart_items_insert (AuthContext.id user) (id props) 1) ;;
                  throw_if (Postgrest.error inserted) ;;
                  toast (added_to_cart props)
              end)
             (fun error => toast (cart_error error)))
          (setIsAddingToCart false)
  end.

Section Clicks.

Context {B : Type} `{Backend B}.

(** A click on the heart and on "Add to Cart". *)
Definition wishlistClick (props : Props) (user : option AuthContext.User)
    (w : World B State) : World B State :=
  click (handleToggleWishlist props user) w.

Definition cartClick (props : Props) (user : option AuthContext.User)
    (w : World B State) : World B State :=
  click (handleAddToCart props user) w.

End Clicks.

(** The effect run on mount: [checkWishlistStatus]. *)
Definition checkWishlistStatus (props : Props) (user : option AuthContext.User)
    : Prog State unit :=
  match user with
  | None => ret tt
  | Some user =>
      setIsLoadingWishlist true ;;
      finally
        (catch
           (r <- await (wishlist_select (AuthContext.id user) (id props)) ;;
            throw_if (Postgrest.error r) ;;
            setIsWishlisted (match Postgrest.data r with Some _ => true | None => false end))
           (fun error =>
              console_error ("Error checking wishlist status: " ++ message error)))
        (setIsLoadingWishlist false)
  end.

(** The component mounts: the effect runs to completion. *)
Definition mount {B : Type} `{Backend B} (props : Props)
    (user : option AuthContext.User) (w : World B State) : World B State :=
  snd (run (checkWishlistStatus props user) w).

(** The [disabled] flag of the "Add to Cart" button. *)
Definition addToCartDisabled (props : Props) (st : State) : bool :=
  negb (inStock props) || isAddingToCart st.

End ProductCard.

(* ===================================================================== *)
(** * QuickActions: the report generator                                  *)
(* ===================================================================== *)

Module QuickActions.

Record State := { isGeneratingReport : bool }.

Definition setIsGeneratingReport (b : bool) : Prog State unit :=
  setState (fun _ => {| isGeneratingReport := b |}).

Definition newline : string := String (ascii_of_nat 10) "".

Definition headers : list string :=
  ["Order ID"; "Customer Name"; "Customer Email"; "Order Date"; "Status"; "Total Amount"].

Definition generating : ToastOptions :=
  {| title := "Generating Report...";
     description := "Please wait while we fetch and process the order data.";
     variant := None |}.

Definition no_data : ToastOptions :=
  {| title := "No Data";
     description := "No orders found to generate a report.";
     variant := Some default |}.

Definition report_generated : ToastOptions :=
  {| title := "Report Generated Successfully";
     description := "The orders report has been downloaded.";
     variant := Some success |}.

Definition report_error (err : JsError) : ToastOptions :=
  {| title := "Error Generating Report";
     description := Js.or_else (message err) "An unexpected error occurred.";
     variant := Some destructive |}.

Section Formatting.

(** The two library calls of a CSV row.
    [format_date s] is [format(new Date(s), 'yyyy-MM-dd HH:mm:ss')]: the
    formatted date, or [None] where [s] does not denote a date and
    [format] throws a [RangeError].  [Number_toString] is
    [Number.prototype.toString]. *)
Variable format_date : string -> option string.
Variable Number_toString : number -> string.

(** The array literal of a row, the date already formatted. *)
Definition fields (order : OrderReportData) (date : string) : list string :=
  [report_id order; report_customer_name order; report_customer_email order;
   date; report_status order; Number_toString (report_total_amount order)].

Definition csvRow (order : OrderReportData) : Prog State string :=
  match format_date (report_order_date order) with
  | None => raise {| message := "Invalid time value" |}
  | Some date => ret (Js.join "," (fields order date))
  end.

(** [handleGenerateReport] *)
Definition handleGenerateReport : Prog State unit :=
  setIsGeneratingReport true ;;
  toast generating ;;
  finally
    (catch
       (r <- await orders_select_report ;;
        throw_if (Postgrest.error r) ;;
        match Postgrest.data r with
        | Some ((_ :: _) as orders) =>
            csvRows <- Array_map csvRow orders ;;
            let csvString := Js.join newline (Js.join "," headers :: csvRows) in
            (* the Blob, its object URL and the anchor that is clicked,
               removed and revoked *)
            saveFile {| blob_text := csvString;
                        blob_type := "text/csv;charset=utf-8;";
                        download_name := "orders_report.csv" |} ;;
            toast report_generated
        | _ =>
            toast no_data ;;
            setIsGeneratingReport false
        end)
       (fun err =>
          console_error "Error generating report:" ;;
          toast (report_error err)))
    (setIsGeneratingReport false).

(** A click on "Generate Report". *)
Definition reportClick {B : Type} `{Backend B} (w : World B State) : World B State :=
  click (fun _ => handleGenerateReport) w.

End Formatting.

End QuickActions.

(* ===================================================================== *)
(** * RecentOrders: what a row shows                                      *)
(* ===================================================================== *)

(** More string built-ins. *)
Module JsString.

(** [s.slice(start)]: from [start] to the end; a negative [start]
    counts from the end. *)
Definition slice (s : string) (start : Z) : string :=
  let len := Z.of_nat (String.length s) in
  let k := Js.relative_index len start in
  substring (Z.to_nat k) (Z.to_nat (len - k)) s.

(** [s.charAt(i)]: the character at [i], or the empty string. *)
Definition charAt (s : string) (i : nat) : string := substring i 1 s.

(** [String.prototype.toUpperCase], on the code units a [string] holds
    here (0 to 255).  The small letters a-z, U+00E0 to U+00F6 and U+00F8
    to U+00FE go to the unit 32 below; the sharp s U+00DF becomes the
    two letters SS; the micro sign U+00B5 and y with diaeresis U+00FF
    have capitals above 255 (U+039C, U+0178), which a [string] cannot
    hold: the result is [None] there; every other unit stays. *)
Definition upper_char (c : ascii) : option string :=
  let n := nat_of_ascii c in
  if (((97 <=? n)%nat && (n <=? 122)%nat)
      || ((224 <=? n)%nat && (n <=? 246)%nat)
      || ((248 <=? n)%nat && (n <=? 254)%nat))%bool
  then Some (String (ascii_of_nat (n - 32)) "")
  else if (n =? 223)%nat then Some "SS"
  else if ((n =? 181)%nat || (n =? 255)%nat)%bool then None
  else Some (String c "").

Fixpoint toUpperCase (s : string) : option string :=
  match s with
  | EmptyString => Some EmptyString
  | String c s' =>
      match upper_char c, toUpperCase s' with
      | Some u, Some rest => Some (u ++ rest)%string
      | _, _ => None
      end
  end.

End JsString.

Module RecentOrders.

Definition getStatusBadgeColor (status : OrderStatus) : string :=
  match status with
  | completed => "bg-green-100 text-green-700"
  | processing => "bg-blue-100 text-blue-700"
  | shipped => "bg-purple-100 text-purple-700"
  | pending => "bg-amber-100 text-amber-700"
  | cancelled => "bg-red-100 text-red-700"
  end.

(** [order.id.slice(-8)] *)
Definition shownId (id : string) : string := JsString.slice id (-8).

(** [status.charAt(0).toUpperCase() + status.slice(1)] *)
Definition shownStatus (status : string) : option string :=
  match JsString.toUpperCase (JsString.charAt status 0) with
  | Some initial => Some (initial ++ JsString.slice status 1)%string
  | None => None
  end.

End RecentOrders.

(* ===================================================================== *)
(** * A remote service made of three tables                               *)
(* ===================================================================== *)

(** Modelled from the spec: the remote database service, which is not
    part of the repository.  The specification names its collections
    ([orders], [wishlist], [cart_items]) and gives each operation as
    "rows or an error"; here the collections are lists of rows, a
    request made during an outage resolves to [{ data: null, error }]
    and leaves the rows alone, and any other request is carried out on
    the rows. *)
Module Tables.

Record Db := {
  orders : list Order;
  wishlist : list WishlistRow;
  cart_items : list CartItem;
  outages : list (option JsError)
}.

Definition wishlist_matches (user_id : string) (product_id : Z) (row : WishlistRow) : bool :=
  String.eqb (wishlist_user_id row) user_id && (wishlist_product_id row =? product_id).

Definition cart_matches (user_id : string) (product_id : Z) (row : CartItem) : bool :=
  String.eqb (cart_user_id row) user_id && (cart_product_id row =? product_id).

Definition to_report (order : Order) : OrderReportData :=
  {| report_id := id order;
     report_customer_name := customer_name order;
     report_customer_email := customer_email order;
     report_order_date := order_date order;
     report_status := status_text (status order);
     report_total_amount := total_amount order |}.

Definition ok {T : Type} (x : T) : Postgrest.Response T :=
  {| Postgrest.data := Some x; Postgrest.error := None |}.

Definition failed {T : Type} (e : JsError) : Postgrest.Response T :=
  {| Postgrest.data := None; Postgrest.error := Some e |}.

(** [maybeSingle()]: the row, [null] when there is none, an error when
    there are several. *)
Definition maybeSingle {T : Type} (rows : list T) : Postgrest.Response T :=
  match rows with
  | [] => {| Postgrest.data := None; Postgrest.error := None |}
  | [row] => ok row
  | _ => failed {| message := "JSON object requested, multiple (or no) rows returned" |}
  end.

Definition with_tables (db : Db) (o : list Order) (w : list WishlistRow)
    (c : list CartItem) : Db :=
  {| orders := o; wishlist := w; cart_items := c; outages := outages db |}.

Definition perform (c : RemoteCall) (db : Db) : Postgrest.Response (payload c) * Db :=
  match c return Postgrest.Response (payload c) * Db with
  | orders_select_all => (ok (orders db), db)
  | orders_update_status orderId newStatus =>
      let updated :=
        map (fun order => if String.eqb (id order) orderId
                          then with_status order newStatus else order)
            (orders db) in
      (ok (filter (fun order => String.eqb (id order) orderId) updated),
       with_tables db updated (wishlist db) (cart_items db))
  | orders_select_report => (ok (map to_report (orders db)), db)
  | wishlist_select u p =>
      (maybeSingle (map wishlist_product_id (filter (wishlist_matches u p) (wishlist db))), db)
  | wishlist_delete u p =>
      (ok tt,
       with_tables db (orders db)
         (filter (fun row => negb (wishlist_matches u p row)) (wishlist db))
         (cart_items db))
  | wishlist_insert u p =>
      (ok tt,
       with_tables db (orders db)
         (wishlist db ++ [{| wishlist_user_id := u; wishlist_product_id := p |}])
         (cart_items db))
  | cart_items_select u p =>
      (maybeSingle (map cart_product_id (filter (cart_matches u p) (cart_items db))), db)
  | cart_items_insert u p q =>
      (ok tt,
       with_tables db (orders db) (wishlist db)
         (cart_items db ++ [{| cart_user_id := u; cart_product_id := p; quantity := q |}]))
  end.

Definition after_request (db : Db) : Db :=
  {| orders := orders db; wishlist := wishlist db; cart_items := cart_items db;
     outages := tl (outages db) |}.

#[global] Instance Backend_Db : Backend Db :=
  fun c db =>
    match outages db with
    | Some e :: _ => (failed e, after_request db)
    | _ => perform c (after_request db)
    end.

(** The rows of a (user, product) pair. *)
Definition wishlist_rows (user_id : string) (product_id : Z) (db : Db) : list WishlistRow :=
  filter (wishlist_matches user_id product_id) (wishlist db).

Definition cart_rows (user_id : string) (product_id : Z) (db : Db) : list CartItem :=
  filter (cart_matches user_id product_id) (cart_items db).

(** No outage during the next [n] requests. *)
Fixpoint available (n : nat) (outages : list (option JsError)) : bool :=
  match n, outages with
  | O, _ => true
  | _, [] => true
  | Datatypes.S n', None :: rest => available n' rest
  | Datatypes.S _, Some _ :: _ => false
  end.

End Tables.

(** A service that resolves every status update to the same reply, and
    any other request to nothing: enough to script one update. *)
Module Canned.

Record Service := { update_reply : Postgrest.Response (list Order) }.

Definition nothing {T : Type} : Postgrest.Response T :=
  {| Postgrest.data := None; Postgrest.error := None |}.

#[global] Instance Backend_Service : Backend Service :=
  fun c s =>
    match c return Postgrest.Response (payload c) * Service with
    | orders_update_status _ _ => (update_reply s, s)
    | _ => (nothing, s)
    end.

End Canned.

(* ===================================================================== *)
(** * The specification's vocabulary                                      *)
(* ===================================================================== *)

Module Spec.

(** The capital letters among the code units below 256: A to Z, and
    the accented capitals U+00C0 to U+00DE but for the multiplication
    sign U+00D7.  The small letter of a capital is the unit 32 above. *)
Definition capital (c : ascii) : bool :=
  let n := nat_of_ascii c in
  ((65 <=? n)%nat && (n <=? 90)%nat)
  || ((192 <=? n)%nat && (n <=? 222)%nat && negb (n =? 215)%nat).

(** Two characters that are the same letter, whatever its case: the
    same character, or a capital and its small letter. *)
Definition same_letter (a b : ascii) : Prop :=
  a = b
  \/ (capital a = true /\ nat_of_ascii b = (nat_of_ascii a + 32)%nat)
  \/ (capital b = true /\ nat_of_ascii a = (nat_of_ascii b + 32)%nat).

(** Two strings that differ at most in the case of their letters:
    equally long, and letter by letter the same letter. *)
Fixpoint same_ignoring_case (a b : string) : Prop :=
  match a, b with
  | EmptyString, EmptyString => True
  | String x a', String y b' => same_letter x y /\ same_ignoring_case a' b'
  | _, _ => False
  end.



(** Two orders that agree on every field but, possibly, the status. *)
Definition same_but_status (a b : Order) : Prop :=
  id a = id b
  /\ customer_name a = customer_name b
  /\ customer_email a = customer_email b
  /\ order_date a = order_date b
  /\ total_amount a = total_amount b
  /\ items a = items b
  /\ shipping_address a = shipping_address b.

(** Two states of the order list that agree on every cell but,
    possibly, the orders. *)
Definition same_but_orders (a b : OrdersPage.State) : Prop :=
  OrdersPage.isLoading a = OrdersPage.isLoading b
  /\ OrdersPage.error a = OrdersPage.error b
  /\ OrdersPage.searchTerm a = OrdersPage.searchTerm b
  /\ OrdersPage.statusFilter a = OrdersPage.statusFilter b
  /\ OrdersPage.currentPage a = OrdersPage.currentPage b
  /\ OrdersPage.selectedOrder a = OrdersPage.selectedOrder b
  /\ OrdersPage.isViewModalOpen a = OrdersPage.isViewModalOpen b.



(** The rows of the report for [orders] whose formatted dates are
    [dates]: the six fields of each order, joined by commas. *)
Definition report_rows (Number_toString : number -> string)
    (orders : list OrderReportData) (dates : list string) : list string :=
  map (fun od => Js.join "," (QuickActions.fields Number_toString (fst od) (snd od)))
      (combine orders dates).

(** A string that holds no character [c]. *)
Fixpoint free_of (c : ascii) (s : string) : bool :=
  match s with
  | EmptyString => true
  | String a s' => negb (Ascii.eqb a c) && free_of c s'
  end.

(** How many times the character [c] occurs in [s]. *)
Fixpoint count_char (c : ascii) (s : string) : nat :=
  match s with
  | EmptyString => 0
  | String a s' => (if Ascii.eqb a c then 1 else 0) + count_char c s'
  end.

(** The columns of a line of the report. *)
Definition columns (line : string) : list string :=
  Js.split_on (ascii_of_nat 44) line.

(** The lines of a text. *)
Definition lines (text : string) : list string :=
  Js.split_on (ascii_of_nat 10) text.

(** A field that holds no line break. *)
Fixpoint one_line (s : string) : bool :=
  match s with
  | EmptyString => true
  | String c s' => negb (Ascii.eqb c (ascii_of_nat 10)) && one_line s'
  end.

End Spec.

(* ===================================================================== *)
(** * Sample data                                                         *)
(* ===================================================================== *)

Module Sample.

(** 250, 1200 and 0 as binary64 values. *)
Definition n250 : number := S754_finite false 8796093022208000 (-45).
Definition n1200 : number := S754_finite false 5277655813324800 (-42).
Definition n0 : number := S754_zero false.

Definition address : ShippingAddress :=
  {| line1 := "1 High Street"; line2 := None; city := "Colne";
     state := "Lancashire"; postal_code := "BB8" |}.

(** The [i]-th order of a numbered series: A, B, C, ... *)
Definition order_no (i : nat) : Order :=
  {| id := String (ascii_of_nat (65 + i)) "";
     customer_name := "Asha";
     customer_email := "asha@example.com";
     order_date := "2024-05-01T10:00:00.000Z";
     status := pending;
     total_amount := n250;
     items := [];
     shipping_address := address |}.

Definition numbered (n : nat) : list Order := map order_no (seq 0 n).

(** An order list page holding [orders], with the search box empty. *)
Definition page (orders : list Order) : OrdersPage.State :=
  {| OrdersPage.orders := orders;
     OrdersPage.isLoading := false;
     OrdersPage.error := None;
     OrdersPage.searchTerm := "";
     OrdersPage.statusFilter := all;
     OrdersPage.currentPage := 1;
     OrdersPage.selectedOrder := None;
     OrdersPage.isViewModalOpen := false |}.

Definition fresh {B S : Type} (b : B) (s : S) : World B S :=
  {| backend := b; ui := s; toasts := []; requests := []; console := [];
     downloads := [] |}.

Definition store (orders : list Order) (wishlist : list WishlistRow)
    (cart_items : list CartItem) (outages : list (option JsError)) : Tables.Db :=
  {| Tables.orders := orders; Tables.wishlist := wishlist;
     Tables.cart_items := cart_items; Tables.outages := outages |}.

Definition shop (outages : list (option JsError)) : Tables.Db :=
  store (numbered 3) [] [] outages.

Definition asha : AuthContext.User := {| AuthContext.id := "user-1" |}.

Definition kettle : ProductCard.Props :=
  {| ProductCard.id := 7;
     ProductCard.name := "Kettle";
     ProductCard.price := n1200;
     ProductCard.discount := n0;
     ProductCard.image := "/kettle.png";
     ProductCard.category := "Kitchen";
     ProductCard.inStock := true;
     ProductCard.rating := None;
     ProductCard.salesCount := None |}.

Definition card (isWishlisted : bool) : ProductCard.State :=
  {| ProductCard.isWishlisted := isWishlisted;
     ProductCard.isLoadingWishlist := false;
     ProductCard.isAddingToCart := false |}.

(** A product that is out of stock. *)
Definition teapot : ProductCard.Props :=
  {| ProductCard.id := 8;
     ProductCard.name := "Teapot";
     ProductCard.price := n1200;
     ProductCard.discount := n0;
     ProductCard.image := "/teapot.png";
     ProductCard.category := "Kitchen";
     ProductCard.inStock := false;
     ProductCard.rating := None;
     ProductCard.salesCount := None |}.

Definition kettle_in_cart : CartItem :=
  {| cart_user_id := "user-1"; cart_product_id := 7; quantity := 1 |}.

Definition kettle_wished : WishlistRow :=
  {| wishlist_user_id := "user-1"; wishlist_product_id := 7 |}.

(** The amounts of the samples all print as "250". *)
Definition print_250 (_ : number) : string := "250".

(** [format(new Date(s), 'yyyy-MM-dd HH:mm:ss')] in the UTC time zone on
    the timestamps [toISOString] produces (24 characters); any other
    string is taken not to be a date. *)
Definition format_utc (s : string) : option string :=
  if (String.length s =? 24)%nat
  then Some (substring 0 10 s ++ " " ++ substring 11 8 s)%string
  else None.


Definition idle : QuickActions.State := {| QuickActions.isGeneratingReport := false |}.

Definition timeout : JsError := {| message := "Failed to fetch" |}.

End Sample.

(* ===================================================================== *)
(** * Proof automation                                                  *)
(* ===================================================================== *)

(** Case analysis on the comparisons of character codes met in the
    goal and the hypotheses, closed by arithmetic where it can be. *)
Ltac by_codes :=
  repeat match goal with
         | |- context [(?x <=? ?y)%nat] => destruct (Nat.leb_spec x y)
         | |- context [(?x =? ?y)%nat] => destruct (Nat.eqb_spec x y)
         | H : context [(?x <=? ?y)%nat] |- _ => destruct (Nat.leb_spec x y)
         | H : context [(?x =? ?y)%nat] |- _ => destruct (Nat.eqb_spec x y)
         end;
  cbn [andb orb negb] in *; try discriminate; try lia.

(* ===================================================================== *)
(** * Facts about the built-ins                                           *)
(* ===================================================================== *)

Section StringFacts.

Lemma startsWith_iff (s t : string) :
  Js.startsWith s t = true <-> exists post, s = (t ++ post)%string.
Proof.
  revert s; induction t as [|b t IH]; intros s; simpl.
  - split; [intros _; now exists s | reflexivity].
  - destruct s as [|a s].
    + split; [discriminate | intros [post H]; discriminate].
    + rewrite andb_true_iff, Ascii.eqb_eq, IH. split.
      * intros [-> [post ->]]. now exists post.
      * intros [post H]. injection H as -> ->. split; [reflexivity | now exists post].
Qed.

Lemma includes_iff (s t : string) :
  Js.includes s t = true <-> exists pre post, s = (pre ++ t ++ post)%string.
Proof.
  induction s as [|a s IH].
  - cbn [Js.includes]. rewrite orb_false_r, startsWith_iff. split.
    + intros [post H]. now exists "", post.
    + intros [pre [post H]]. destruct pre; [now exists post | discriminate].
  - cbn [Js.includes]. rewrite orb_true_iff, startsWith_iff, IH. split.
    + intros [[post H] | [pre [post H]]].
      * now exists "", post.
      * exists (String a pre), post. simpl. now rewrite H.
    + intros [pre [post H]]. destruct pre as [|c pre].
      * left. now exists post.
      * right. simpl in H. injection H as _ H. now exists pre, post.
Qed.



End StringFacts.

Section ListFacts.

Context {A : Type}.


Lemma nth_error_window (l : list A) (k c i : nat) :
  nth_error (firstn c (skipn k l)) i =
  if (i <? c)%nat then nth_error l (k + i) else None.
Proof.
  destruct (Nat.ltb_spec i c) as [Hlt|Hge].
  - rewrite nth_error_firstn.
    destruct (Nat.ltb_spec i c); [|lia]. apply nth_error_skipn.
  - apply nth_error_None. rewrite length_firstn. lia.
Qed.

End ListFacts.

(** [Math.ceil (n / d)] is the integer ceiling of the quotient. *)
Lemma Math_ceil_quotient (n d : Z) :
  0 < d ->
  d * (Js.Math_ceil (inject_Z n / inject_Z d) - 1) < n <= d * Js.Math_ceil (inject_Z n / inject_Z d).
Proof.
  intros Hd. unfold Js.Math_ceil.
  set (x := (inject_Z n / inject_Z d)%Q).
  pose proof (Qle_ceiling x) as Hle.
  pose proof (Qceiling_lt x) as Hlt.
  set (c := Qceiling x) in *.
  assert (Hx : (x * inject_Z d == inject_Z n)%Q).
  { unfold x. field. intros H. unfold Qeq in H. simpl in H. lia. }
  assert (Hdpos : (0 < inject_Z d)%Q) by (unfold Qlt; simpl; lia).
  split.
  - assert (H : (inject_Z (c - 1) * inject_Z d < x * inject_Z d)%Q)
      by (apply Qmult_lt_compat_r; assumption).
    rewrite Hx in H. unfold Qlt in H. simpl in H. lia.
  - assert (H : (x * inject_Z d <= inject_Z c * inject_Z d)%Q)
      by (apply Qmult_le_compat_r; [assumption | apply Qlt_le_weak; assumption]).
    rewrite Hx in H. unfold Qle in H. simpl in H. lia.
Qed.

(* ===================================================================== *)
(** * Order list: filtering                                               *)
(* ===================================================================== *)

Section CaseFacts.

Lemma code_injective (a b : ascii) : nat_of_ascii a = nat_of_ascii b -> a = b.
Proof.
  intros Hcode. rewrite <- (ascii_nat_embedding a), <- (ascii_nat_embedding b).
  now rewrite Hcode.
Qed.

(** The code of the lower-cased character: 32 above for a capital, the
    same for any other character. *)
Lemma code_lower_char (c : ascii) :
  nat_of_ascii (Js.lower_char c)
  = if Spec.capital c then (nat_of_ascii c + 32)%nat else nat_of_ascii c.
Proof.
  pose proof (nat_ascii_bounded c) as Hbound.
  unfold Js.lower_char, Spec.capital. cbv zeta.
  set (n := nat_of_ascii c) in *.
  by_codes; try reflexivity; apply nat_ascii_embedding; lia.
Qed.

Lemma small_letter_not_capital (a b : ascii) :
  Spec.capital a = true -> nat_of_ascii b = (nat_of_ascii a + 32)%nat ->
  Spec.capital b = false.
Proof.
  unfold Spec.capital. cbv zeta. intros Ha Hb. rewrite Hb.
  set (n := nat_of_ascii a) in *. by_codes; reflexivity.
Qed.

(** Two characters have the same lower-casing exactly when they are the
    same letter. *)
Lemma lower_char_eq_iff (a b : ascii) :
  Js.lower_char a = Js.lower_char b <-> Spec.same_letter a b.
Proof.
  unfold Spec.same_letter. split.
  - intros Hlower. apply (f_equal nat_of_ascii) in Hlower.
    rewrite !code_lower_char in Hlower.
    destruct (Spec.capital a) eqn:Ha, (Spec.capital b) eqn:Hb.
    + left. apply code_injective. lia.
    + right. left. split; [reflexivity | lia].
    + right. right. split; [reflexivity | lia].
    + left. now apply code_injective.
  - intros [-> | [[Ha Hb] | [Hb Ha]]]; [reflexivity| |];
      apply code_injective; rewrite !code_lower_char.
    + rewrite Ha, (small_letter_not_capital a b Ha Hb). lia.
    + rewrite Hb, (small_letter_not_capital b a Hb Ha). lia.
Qed.

Lemma toLowerCase_eq_iff (a b : string) :
  Js.toLowerCase a = Js.toLowerCase b <-> Spec.same_ignoring_case a b.
Proof.
  revert b; induction a as [|x a IH]; intros [|y b];
    cbn [Js.toLowerCase Spec.same_ignoring_case].
  - tauto.
  - split; [discriminate | intros []].
  - split; [discriminate | intros []].
  - rewrite <- IH, <- lower_char_eq_iff. split.
    + intros Heq. injection Heq as Hx Ha. auto.
    + intros [-> ->]. reflexivity.
Qed.

(** An accented capital and its small letter are the same letter: a
    name in capitals starting with E acute (U+00C9) is found by a term in
    small letters starting with e acute (U+00E9); the multiplication
    sign (U+00D7) and the division sign (U+00F7), 32 apart as well, are
    not. *)
Example accented_letters_match :
  Js.includes (Js.toLowerCase (String (ascii_of_nat 201) "COLE"))
              (Js.toLowerCase (String (ascii_of_nat 233) "cole")) = true
  /\ Spec.same_ignoring_case (String (ascii_of_nat 201) "COLE")
                             (String (ascii_of_nat 233) "cole")
  /\ Js.includes (Js.toLowerCase (String (ascii_of_nat 215) ""))
                 (Js.toLowerCase (String (ascii_of_nat 247) "")) = false.
Proof.
  split; [reflexivity|]. split; [|reflexivity].
  apply toLowerCase_eq_iff. reflexivity.
Qed.

End CaseFacts.






(* ===================================================================== *)
(** * Order list: pagination                                              *)
(* ===================================================================== *)

Lemma pageCount_bounds (filtered : list Order) :
  10 * (OrdersPage.pageCount filtered - 1) < Z.of_nat (List.length filtered)
    <= 10 * OrdersPage.pageCount filtered.
Proof. apply (Math_ceil_quotient _ 10). lia. Qed.

(** C4: the page count is the ceiling of a tenth of the number of
    filtered orders; without filtered orders it is 0 and no page link is
    rendered. *)
Theorem pageCount_is_ceiling (filtered : list Order) :
  (10 * (OrdersPage.pageCount filtered - 1) < Z.of_nat (List.length filtered)
     <= 10 * OrdersPage.pageCount filtered)
  /\ OrdersPage.pageCount filtered = (Z.of_nat (List.length filtered) + 9) / 10
  /\ OrdersPage.pageCount [] = 0
  /\ (forall currentPage, OrdersPage.pageLinks [] currentPage = []).
Proof.
  pose proof (pageCount_bounds filtered) as Hb.
  repeat split; try apply Hb; try reflexivity.
  apply Z.div_unique with
    (r := Z.of_nat (List.length filtered) + 9 - 10 * OrdersPage.pageCount filtered); lia.
Qed.

Lemma currentOrders_unfold (filtered : list Order) (p : Z) :
  1 <= p ->
  OrdersPage.currentOrders filtered p =
  firstn (Z.to_nat (Z.min (p * 10) (Z.of_nat (List.length filtered)) - (p - 1) * 10))
         (skipn (Z.to_nat ((p - 1) * 10)) filtered).
Proof.
  intros Hp.
  unfold OrdersPage.currentOrders, Js.slice, Js.relative_index,
    OrdersPage.indexOfFirstOrder, OrdersPage.indexOfLastOrder, OrdersPage.ordersPerPage.
  set (n := Z.of_nat (List.length filtered)).
  destruct (Z.ltb_spec (p * 10 - 10) 0); [lia|].
  destruct (Z.ltb_spec (p * 10) 0); [lia|].
  destruct (Z.le_gt_cases ((p - 1) * 10) n) as [Hin|Hout].
  - replace (Z.min (p * 10 - 10) n) with ((p - 1) * 10) by lia.
    f_equal. lia.
  - rewrite !skipn_all2 by (unfold n in *; lia).
    now rewrite !firstn_nil.
Qed.

(** C5: on page [p >= 1] the rows shown are the filtered orders at the
    offsets [(p-1)*10 .. min(p*10, count) - 1], in that order; with 23
    filtered orders page 3 shows the three orders at offsets 20, 21, 22. *)
Theorem currentOrders_window (filtered : list Order) (p : Z) (Hp : 1 <= p) :
  (forall i : nat,
      nth_error (OrdersPage.currentOrders filtered p) i =
      if (p - 1) * 10 + Z.of_nat i <? Z.min (p * 10) (Z.of_nat (List.length filtered))
      then nth_error filtered (Z.to_nat ((p - 1) * 10) + i)
      else None)
  /\ Z.of_nat (List.length (OrdersPage.currentOrders filtered p)) =
     Z.max 0 (Z.min (p * 10) (Z.of_nat (List.length filtered)) - (p - 1) * 10)
  /\ (forall d, List.length filtered = 23%nat ->
        OrdersPage.currentOrders filtered 3 =
        [nth 20 filtered d; nth 21 filtered d; nth 22 filtered d]).
Proof.
  split; [|split].
  - intros i. rewrite currentOrders_unfold by assumption.
    rewrite nth_error_window.
    destruct (Nat.ltb_spec i
                (Z.to_nat (Z.min (p * 10) (Z.of_nat (List.length filtered)) - (p - 1) * 10)));
      destruct (Z.ltb_spec ((p - 1) * 10 + Z.of_nat i)
                  (Z.min (p * 10) (Z.of_nat (List.length filtered))));
      try reflexivity; lia.
  - rewrite currentOrders_unfold by assumption.
    rewrite length_firstn, length_skipn. lia.
  - intros d H23. rewrite currentOrders_unfold by lia. rewrite H23.
    do 23 (destruct filtered as [|? filtered]; [discriminate|]).
    destruct filtered; [reflexivity | discriminate].
Qed.

Lemma currentOrders_window_witness :
  1 <= 3
  /\ OrdersPage.currentOrders (Sample.numbered 23) 3 =
     [Sample.order_no 20; Sample.order_no 21; Sample.order_no 22].
Proof.
  split; [lia|].
  exact (proj2 (proj2 (currentOrders_window (Sample.numbered 23) 3 ltac:(lia)))
           (Sample.order_no 0) eq_refl).
Defined.

(** The links stay within the pages there are, and there are at most
    five of them. *)
Lemma pageLinks_in_range (filtered : list Order) (currentPage n : Z) :
  In n (OrdersPage.pageLinks filtered currentPage) ->
  1 <= n <= OrdersPage.pageCount filtered.
Proof.
  unfold OrdersPage.pageLinks.
  destruct (Z.of_nat (List.length filtered) >? 0); [|intros []].
  rewrite in_flat_map. intros (o & Ho & Hn).
  unfold Js.Array_from in Ho. apply in_map_iff in Ho. destruct Ho as (i & <- & _).
  unfold OrdersPage.pageNumber in Hn.
  destruct (Z.gtb_spec (Z.max 1 (Z.min (currentPage - 2 + Z.of_nat i)
                                       (OrdersPage.pageCount filtered)))
                       (OrdersPage.pageCount filtered)) as [Hgt|Hle].
  - destruct Hn.
  - destruct Hn as [<-|[]]. lia.
Qed.

Lemma rendered_at_most (f : Z -> option Z) (n : Z) :
  (List.length
     (flat_map (fun o : option Z => match o with Some n => [n] | None => [] end)
        (Js.Array_from n f)) <= Z.to_nat n)%nat.
Proof.
  unfold Js.Array_from. generalize (Z.to_nat n) as m. generalize 0%nat as start.
  intros start m; revert start.
  induction m as [|m IH]; intros start; simpl; [lia|].
  rewrite length_app. specialize (IH (Datatypes.S start)).
  destruct (f (Z.of_nat start)); simpl; lia.
Qed.

Lemma pageLinks_at_most_five (filtered : list Order) (currentPage : Z) :
  (List.length (OrdersPage.pageLinks filtered currentPage) <= 5)%nat.
Proof.
  unfold OrdersPage.pageLinks.
  destruct (Z.of_nat (List.length filtered) >? 0); [|simpl; lia].
  etransitivity; [apply rendered_at_most | lia].
Qed.

(** Away from both ends the five links are the current page and its
    two neighbours on either side. *)
Lemma pageLinks_interior (filtered : list Order) (currentPage : Z) :
  3 <= currentPage <= OrdersPage.pageCount filtered - 2 ->
  OrdersPage.pageLinks filtered currentPage =
  [currentPage - 2; currentPage - 1; currentPage; currentPage + 1; currentPage + 2].
Proof.
  intros Hp. pose proof (pageCount_bounds filtered) as Hb.
  unfold OrdersPage.pageLinks.
  destruct (Z.gtb_spec (Z.of_nat (List.length filtered)) 0) as [_|Hempty]; [|lia].
  set (pc := OrdersPage.pageCount filtered) in *.
  replace (Z.min 5 pc) with 5 by lia.
  unfold Js.Array_from, OrdersPage.pageNumber.
  change (Z.to_nat 5) with 5%nat.
  cbn [seq map flat_map Z.of_nat Pos.of_succ_nat Pos.succ].
  repeat match goal with
         | |- context [Z.max 1 (Z.min ?x pc) >? pc] =>
             destruct (Z.gtb_spec (Z.max 1 (Z.min x pc)) pc); [lia|]
         end.
  cbn [app]. repeat (f_equal; try lia).
Qed.

(** C6, at the first of ten pages: the five links are 1, 1, 1, 2, 3.
    Page 1 is linked three times, and the window has not moved to
    1, 2, 3, 4, 5. *)
Theorem pageLinks_first_of_ten_pages :
  OrdersPage.pageCount (Sample.numbered 100) = 10
  /\ OrdersPage.pageLinks (Sample.numbered 100) 1 = [1; 1; 1; 2; 3]
  /\ ~ NoDup (OrdersPage.pageLinks (Sample.numbered 100) 1).
Proof.
  assert (H : OrdersPage.pageLinks (Sample.numbered 100) 1 = [1; 1; 1; 2; 3])
    by (vm_compute; reflexivity).
  split; [vm_compute; reflexivity|]. split; [exact H|].
  rewrite H. intros Hnd. inversion Hnd as [|x l Hnotin _]. apply Hnotin. now left.
Qed.

(* ===================================================================== *)
(** * Order list: status update                                           *)
(* ===================================================================== *)

Section StatusUpdate.

Context {B : Type} `{Backend B}.

(** What a click on a status menu entry does, by the shape of the reply. *)
Lemma run_updateOrderStatus (w : World B OrdersPage.State) (snapshot : list Order)
    (orderId : string) (newStatus : OrderStatus) :
  run (OrdersPage.updateOrderStatus snapshot orderId newStatus) w =
  let request := orders_update_status orderId newStatus in
  let reply := fst (serve request (backend w)) in
  let sent :=
    {| backend := snd (serve request (backend w)); ui := ui w; toasts := toasts w;
       requests := requests w ++ [request]; console := console w;
       downloads := downloads w |} in
  match Postgrest.error reply, Postgrest.data reply with
  | Some e, _ => run (toast (OrdersPage.status_update_error e)) sent
  | None, Some (updatedOrder :: _) =>
      run (OrdersPage.setOrders
             (map (fun order => if String.eqb (id order) orderId
                                then with_status order (status updatedOrder)
                                else order) snapshot) ;;
           toast (OrdersPage.status_updated orderId newStatus)) sent
  | None, _ => run (toast OrdersPage.status_not_updated) sent
  end.
Proof.
  unfold OrdersPage.updateOrderStatus. cbn.
  destruct (serve (orders_update_status orderId newStatus) (backend w)) as [[data error] b].
  cbn. destruct error as [e|]; cbn; [reflexivity|].
  destruct data as [[|updatedOrder rest]|]; reflexivity.
Qed.

End StatusUpdate.

Section StatusUpdateProperties.

Context {B : Type} `{Backend B}.

Variable w : World B OrdersPage.State.
Variable orderId : string.
Variable newStatus : OrderStatus.

Let reply := OrdersPage.statusUpdateReply orderId newStatus w.
Let w' := OrdersPage.statusMenuClick orderId newStatus w.

Lemma statusMenuClick_requests :
  requests w' = requests w ++ [orders_update_status orderId newStatus].
Proof.
  unfold w', OrdersPage.statusMenuClick, click. rewrite run_updateOrderStatus. cbn zeta. cbn [payload] in *.
  destruct (Postgrest.error _) as [e|]; [reflexivity|].
  destruct (Postgrest.data _) as [[|u rest]|]; reflexivity.
Qed.

Lemma statusMenuClick_rows (updatedOrder : Order) (rest : list Order) :
  Postgrest.error reply = None ->
  Postgrest.data reply = Some (updatedOrder :: rest) ->
  OrdersPage.orders (ui w') =
    map (fun order => if String.eqb (id order) orderId
                      then with_status order (status updatedOrder)
                      else order)
        (OrdersPage.orders (ui w))
  /\ Spec.same_but_orders (ui w) (ui w')
  /\ toasts w' = toasts w ++ [OrdersPage.status_updated orderId newStatus].
Proof.
  unfold reply, OrdersPage.statusUpdateReply. intros Herr Hdata.
  unfold w', OrdersPage.statusMenuClick, click. rewrite run_updateOrderStatus. cbn zeta. cbn [payload] in *.
  rewrite Herr, Hdata. cbn. unfold Spec.same_but_orders. cbn. tauto.
Qed.

Lemma statusMenuClick_no_rows :
  Postgrest.error reply = None ->
  Postgrest.data reply = None \/ Postgrest.data reply = Some [] ->
  ui w' = ui w /\ toasts w' = toasts w ++ [OrdersPage.status_not_updated].
Proof.
  unfold reply, OrdersPage.statusUpdateReply. intros Herr Hdata.
  unfold w', OrdersPage.statusMenuClick, click. rewrite run_updateOrderStatus. cbn zeta. cbn [payload] in *.
  rewrite Herr. destruct Hdata as [-> | ->]; cbn; auto.
Qed.

Lemma statusMenuClick_failed (e : JsError) :
  Postgrest.error reply = Some e ->
  ui w' = ui w /\ toasts w' = toasts w ++ [OrdersPage.status_update_error e].
Proof.
  unfold reply, OrdersPage.statusUpdateReply. intros Herr.
  unfold w', OrdersPage.statusMenuClick, click. rewrite run_updateOrderStatus. cbn zeta. cbn [payload] in *.
  rewrite Herr. cbn. auto.
Qed.

End StatusUpdateProperties.

(** What the rewritten list holds at each place: the former order with
    its status set to [written] where the identifier is [orderId], the
    former order as it was elsewhere. *)
Lemma written_status_at (orderId : string) (written : OrderStatus) (l : list Order)
    (i : nat) (before : Order) :
  nth_error l i = Some before ->
  exists after,
    nth_error (map (fun order => if String.eqb (id order) orderId
                                 then with_status order written else order) l) i
    = Some after
    /\ Spec.same_but_status before after
    /\ (id before = orderId -> status after = written)
    /\ (id before <> orderId -> after = before).
Proof.
  intros Hi. rewrite nth_error_map, Hi. cbn [option_map].
  destruct (String.eqb_spec (id before) orderId) as [Heq|Hne].
  - exists (with_status before written). repeat split. intros Hn. contradiction.
  - exists before. repeat split. intros Heq. contradiction.
Qed.

Lemma status_toasts_differ (orderId : string) (newStatus : OrderStatus) (e : JsError) :
  OrdersPage.status_updated orderId newStatus <> OrdersPage.status_not_updated
  /\ OrdersPage.status_updated orderId newStatus <> OrdersPage.status_update_error e.
Proof. split; intros Heq; discriminate (f_equal variant Heq). Qed.



(** C3: when the update resolves to an error, a destructive toast is
    raised and the state of the page, its orders included, is what it
    was before the click. *)
Theorem status_update_error_keeps_state {B : Type} `{Backend B}
    (w : World B OrdersPage.State) (orderId : string) (newStatus : OrderStatus)
    (e : JsError)
    (Herror : Postgrest.error (OrdersPage.statusUpdateReply orderId newStatus w) = Some e) :
  ui (OrdersPage.statusMenuClick orderId newStatus w) = ui w
  /\ OrdersPage.orders (ui (OrdersPage.statusMenuClick orderId newStatus w))
     = OrdersPage.orders (ui w)
  /\ toasts (OrdersPage.statusMenuClick orderId newStatus w)
     = toasts w ++ [OrdersPage.status_update_error e]
  /\ variant (OrdersPage.status_update_error e) = Some destructive.
Proof.
  destruct (statusMenuClick_failed w orderId newStatus e Herror) as (Hui & Htoasts).
  rewrite Hui. auto.
Qed.

Lemma status_update_error_keeps_state_witness :
  let w := Sample.fresh (Sample.shop [Some Sample.timeout]) (Sample.page (Sample.numbered 3)) in
  Postgrest.error (OrdersPage.statusUpdateReply "B" shipped w) = Some Sample.timeout
  /\ ui (OrdersPage.statusMenuClick "B" shipped w) = ui w
  /\ toasts (OrdersPage.statusMenuClick "B" shipped w)
     = [OrdersPage.status_update_error Sample.timeout].
Proof.
  intros w.
  assert (Herror : Postgrest.error (OrdersPage.statusUpdateReply "B" shipped w)
                   = Some Sample.timeout) by reflexivity.
  split; [exact Herror|].
  pose proof (status_update_error_keeps_state w "B" shipped _ Herror) as Hkept.
  split; apply Hkept.
Defined.

(** C10: when the update resolves without error but to no row, the state
    of the page is left as it was and the destructive toast "Failed to
    update status" is raised; the confirmation is raised and the state
    changes only when the reply holds at least one row; and then each
    order of the requested identifier gets the status of the first row
    of the reply, whatever status was requested, its other fields and
    the other orders staying as they were. *)
Theorem status_update_follows_reply {B : Type} `{Backend B}
    (w : World B OrdersPage.State) (orderId : string) (newStatus : OrderStatus) :
  (Postgrest.error (OrdersPage.statusUpdateReply orderId newStatus w) = None ->
   Postgrest.data (OrdersPage.statusUpdateReply orderId newStatus w) = None
   \/ Postgrest.data (OrdersPage.statusUpdateReply orderId newStatus w) = Some [] ->
   ui (OrdersPage.statusMenuClick orderId newStatus w) = ui w
   /\ toasts (OrdersPage.statusMenuClick orderId newStatus w)
      = toasts w ++ [OrdersPage.status_not_updated]
   /\ title OrdersPage.status_not_updated = "Failed to update status"
   /\ variant OrdersPage.status_not_updated = Some destructive)
  /\ (ui (OrdersPage.statusMenuClick orderId newStatus w) <> ui w
      \/ In (OrdersPage.status_updated orderId newStatus)
            (skipn (List.length (toasts w))
                   (toasts (OrdersPage.statusMenuClick orderId newStatus w))) ->
      Postgrest.error (OrdersPage.statusUpdateReply orderId newStatus w) = None
      /\ exists updatedOrder rest,
           Postgrest.data (OrdersPage.statusUpdateReply orderId newStatus w)
           = Some (updatedOrder :: rest))
  /\ (forall updatedOrder rest,
        Postgrest.error (OrdersPage.statusUpdateReply orderId newStatus w) = None ->
        Postgrest.data (OrdersPage.statusUpdateReply orderId newStatus w)
        = Some (updatedOrder :: rest) ->
        List.length (OrdersPage.orders (ui (OrdersPage.statusMenuClick orderId newStatus w)))
        = List.length (OrdersPage.orders (ui w))
        /\ forall i before,
             nth_error (OrdersPage.orders (ui w)) i = Some before ->
             exists after,
               nth_error
                 (OrdersPage.orders (ui (OrdersPage.statusMenuClick orderId newStatus w))) i
               = Some after
               /\ Spec.same_but_status before after
               /\ (id before = orderId -> status after = status updatedOrder)
               /\ (id before <> orderId -> after = before)).
Proof.
  split; [|split].
  - intros Herror Hdata.
    destruct (statusMenuClick_no_rows w orderId newStatus Herror Hdata) as (Hui & Htoasts).
    auto.
  - intros Hran.
    destruct (Postgrest.error (OrdersPage.statusUpdateReply orderId newStatus w))
      as [e|] eqn:Herror.
    + destruct (statusMenuClick_failed w orderId newStatus e Herror) as (Hui & Htoasts).
      exfalso. destruct Hran as [Hui'|Hin]; [contradiction|].
      rewrite Htoasts, skipn_app, skipn_all, Nat.sub_diag in Hin.
      destruct Hin as [Heq|[]].
      symmetry in Heq. now apply status_toasts_differ in Heq.
    + split; [reflexivity|].
      destruct (Postgrest.data (OrdersPage.statusUpdateReply orderId newStatus w))
        as [[|updatedOrder rest]|] eqn:Hdata; [| now exists updatedOrder, rest |].
      * destruct (statusMenuClick_no_rows w orderId newStatus Herror (or_intror Hdata))
          as (Hui & Htoasts).
        exfalso. destruct Hran as [Hui'|Hin]; [contradiction|].
        rewrite Htoasts, skipn_app, skipn_all, Nat.sub_diag in Hin.
        destruct Hin as [Heq|[]].
        symmetry in Heq. now apply status_toasts_differ in Heq.
      * destruct (statusMenuClick_no_rows w orderId newStatus Herror (or_introl Hdata))
          as (Hui & Htoasts).
        exfalso. destruct Hran as [Hui'|Hin]; [contradiction|].
        rewrite Htoasts, skipn_app, skipn_all, Nat.sub_diag in Hin.
        destruct Hin as [Heq|[]].
        symmetry in Heq. now apply status_toasts_differ in Heq.
  - intros updatedOrder rest Herror Hdata.
    destruct (statusMenuClick_rows w orderId newStatus updatedOrder rest Herror Hdata)
      as (Horders & _).
    rewrite Horders. split; [apply length_map|].
    intros i before Hi. now apply written_status_at.
Qed.

Lemma status_update_follows_reply_witness :
  let scripted :=
    Sample.fresh
      {| Canned.update_reply :=
           {| Postgrest.data :=
                Some [{| id := "B"; customer_name := "Asha";
                         customer_email := "asha@example.com";
                         order_date := "2024-05-01T10:00:00.000Z";
                         status := cancelled; total_amount := Sample.n250;
                         items := []; shipping_address := Sample.address |}];
              Postgrest.error := None |} |}
      (Sample.page (Sample.numbered 3)) in
  let w := Sample.fresh (Sample.shop []) (Sample.page (Sample.numbered 3)) in
  (Postgrest.error (OrdersPage.statusUpdateReply "Z" shipped w) = None
   /\ Postgrest.data (OrdersPage.statusUpdateReply "Z" shipped w) = Some []
   /\ ui (OrdersPage.statusMenuClick "Z" shipped w) = ui w
   /\ toasts (OrdersPage.statusMenuClick "Z" shipped w) = [OrdersPage.status_not_updated])
  /\ map status (OrdersPage.orders (ui scripted)) = [pending; pending; pending]
  /\ exists after,
       nth_error (OrdersPage.orders (ui (OrdersPage.statusMenuClick "B" shipped scripted))) 1
       = Some after
       /\ id after = "B" /\ status after = cancelled.
Proof.
  intros scripted w. split; [|split; [reflexivity|]].
  - split; [reflexivity|]. split; [reflexivity|].
    pose proof (proj1 (status_update_follows_reply w "Z" shipped) eq_refl
                  (or_intror eq_refl)) as Hkept.
    split; apply Hkept.
  - pose proof (proj2 (proj2 (status_update_follows_reply scripted "B" shipped))
                  _ _ eq_refl eq_refl) as [_ Hplaces].
    destruct (Hplaces 1%nat (Sample.order_no 1) eq_refl)
      as (after & Hafter & Hsame & Hwritten & _).
    exists after. split; [exact Hafter|]. split.
    + symmetry. exact (proj1 Hsame).
    + exact (Hwritten eq_refl).
Defined.

(* ===================================================================== *)
(** * Product card                                                        *)
(* ===================================================================== *)

Section ProductCardRuns.

Context {B : Type} `{Backend B}.

Variable props : ProductCard.Props.
Variable user : AuthContext.User.
Variable w : World B ProductCard.State.

Let user_id := AuthContext.id user.
Let product_id := ProductCard.id props.

(** The state a handler leaves when it is through. *)
Let settled (isWishlisted isAddingToCart : bool) : ProductCard.State :=
  {| ProductCard.isWishlisted := isWishlisted;
     ProductCard.isLoadingWishlist := ProductCard.isLoadingWishlist (ui w);
     ProductCard.isAddingToCart := isAddingToCart |}.



(** A click on the heart whose request goes through flips the flag. *)
Lemma wishlistClick_done :
  let request :=
    if ProductCard.isWishlisted (ui w)
    then wishlist_delete user_id product_id
    else wishlist_insert user_id product_id in
  Postgrest.error (fst (serve request (backend w))) = None ->
  ProductCard.wishlistClick props (Some user) w =
  {| backend := snd (serve request (backend w));
     ui := {| ProductCard.isWishlisted := negb (ProductCard.isWishlisted (ui w));
              ProductCard.isLoadingWishlist := false;
              ProductCard.isAddingToCart := ProductCard.isAddingToCart (ui w) |};
     toasts := toasts w ++
               [if ProductCard.isWishlisted (ui w)
                then ProductCard.removed_from_wishlist props
                else ProductCard.added_to_wishlist props];
     requests := requests w ++ [request];
     console := console w;
     downloads := downloads w |}.
Proof.
  unfold ProductCard.wishlistClick, click, ProductCard.handleToggleWishlist.
  fold user_id product_id.
  destruct (ProductCard.isWishlisted (ui w)); cbn; intros Hok.
  - destruct (serve (wishlist_delete user_id product_id) (backend w)) as [r b].
    cbn in Hok. rewrite Hok. reflexivity.
  - destruct (serve (wishlist_insert user_id product_id) (backend w)) as [r b].
    cbn in Hok. rewrite Hok. reflexivity.
Qed.

End ProductCardRuns.

Section TablesFacts.

Lemma serve_available (c : RemoteCall) (db : Tables.Db) (n : nat) :
  Tables.available (Datatypes.S n) (Tables.outages db) = true ->
  serve c db = Tables.perform c (Tables.after_request db)
  /\ Tables.available n (Tables.outages (Tables.after_request db)) = true.
Proof.
  unfold serve, Tables.Backend_Db. cbn.
  destruct (Tables.outages db) as [|[e|] rest]; cbn; try discriminate; auto.
  intros _. split; [reflexivity|]. now destruct n.
Qed.

Lemma perform_outages (c : RemoteCall) (db : Tables.Db) :
  Tables.outages (snd (Tables.perform c db)) = Tables.outages db.
Proof. destruct c; reflexivity. Qed.

Lemma wishlist_matches_eq (u : string) (p : Z) (row : WishlistRow) :
  Tables.wishlist_matches u p row = true
  <-> row = {| wishlist_user_id := u; wishlist_product_id := p |}.
Proof.
  unfold Tables.wishlist_matches. destruct row as [u' p']. cbn.
  rewrite andb_true_iff, String.eqb_eq, Z.eqb_eq. split.
  - intros [-> ->]. reflexivity.
  - intros Heq. injection Heq as -> ->. auto.
Qed.

Lemma filter_none {A : Type} (f : A -> bool) (l : list A) :
  filter f l = [] -> filter (fun x => negb (f x)) l = l.
Proof.
  induction l as [|x l IH]; cbn; [reflexivity|].
  destruct (f x); cbn; [discriminate|]. intros Hnil. now rewrite IH.
Qed.

Lemma filter_split_permutation {A : Type} (f : A -> bool) (l : list A) :
  Permutation (filter (fun x => negb (f x)) l ++ filter f l) l.
Proof.
  induction l as [|x l IH]; cbn; [constructor|].
  destruct (f x); cbn.
  - symmetry. apply Permutation_cons_app. now symmetry.
  - now constructor.
Qed.

(** Removing the rows of a pair and inserting the pair gives back a
    table that held the pair once. *)
Lemma wishlist_delete_insert (u : string) (p : Z) (rows : list WishlistRow) :
  List.length (filter (Tables.wishlist_matches u p) rows) = 1%nat ->
  Permutation
    (filter (fun row => negb (Tables.wishlist_matches u p row)) rows
       ++ [{| wishlist_user_id := u; wishlist_product_id := p |}])
    rows.
Proof.
  intros Hone.
  pose proof (filter_split_permutation (Tables.wishlist_matches u p) rows) as Hperm.
  destruct (filter (Tables.wishlist_matches u p) rows) as [|row [|]] eqn:Hrows;
    try discriminate.
  assert (Hrow : In row (filter (Tables.wishlist_matches u p) rows))
    by (rewrite Hrows; now left).
  apply filter_In in Hrow. destruct Hrow as [_ Hrow].
  apply wishlist_matches_eq in Hrow. now subst row.
Qed.

(** Inserting a pair the table did not hold and removing its rows gives
    back the table. *)
Lemma wishlist_insert_delete (u : string) (p : Z) (rows : list WishlistRow) :
  List.length (filter (Tables.wishlist_matches u p) rows) = 0%nat ->
  filter (fun row => negb (Tables.wishlist_matches u p row))
    (rows ++ [{| wishlist_user_id := u; wishlist_product_id := p |}])
  = rows.
Proof.
  intros Hnone. apply length_zero_iff_nil in Hnone.
  rewrite filter_app, (filter_none _ _ Hnone). cbn.
  unfold Tables.wishlist_matches. cbn. rewrite String.eqb_refl, Z.eqb_refl. cbn.
  apply app_nil_r.
Qed.

End TablesFacts.




(** One click on the heart, on the tables, while the service is
    available. *)
Lemma wishlistClick_tables (props : ProductCard.Props) (user : AuthContext.User)
    (w : World Tables.Db ProductCard.State) (n : nat) :
  Tables.available (Datatypes.S n) (Tables.outages (backend w)) = true ->
  let request :=
    if ProductCard.isWishlisted (ui w)
    then wishlist_delete (AuthContext.id user) (ProductCard.id props)
    else wishlist_insert (AuthContext.id user) (ProductCard.id props) in
  ProductCard.wishlistClick props (Some user) w =
  {| backend := snd (Tables.perform request (Tables.after_request (backend w)));
     ui := {| ProductCard.isWishlisted := negb (ProductCard.isWishlisted (ui w));
              ProductCard.isLoadingWishlist := false;
              ProductCard.isAddingToCart := ProductCard.isAddingToCart (ui w) |};
     toasts := toasts w ++
               [if ProductCard.isWishlisted (ui w)
                then ProductCard.removed_from_wishlist props
                else ProductCard.added_to_wishlist props];
     requests := requests w ++ [request];
     console := console w;
     downloads := downloads w |}
  /\ Tables.available n
       (Tables.outages (backend (ProductCard.wishlistClick props (Some user) w))) = true.
Proof.
  intros Hav request.
  destruct (serve_available request (backend w) n Hav) as [Hserve Hav'].
  assert (Hok : Postgrest.error (fst (serve request (backend w))) = None).
  { rewrite Hserve. unfold request.
    destruct (ProductCard.isWishlisted (ui w)); reflexivity. }
  pose proof (wishlistClick_done props user w) as Hdone.
  cbv zeta in Hdone. fold request in Hdone. specialize (Hdone Hok).
  rewrite Hdone, Hserve. split; [reflexivity|].
  cbn [backend]. now rewrite perform_outages.
Qed.

(** C8: for a signed-in user, with the service available, two clicks on
    the heart in a row leave the wishlisted flag as it was and send two
    requests, both mutations, one insert and one delete; when the flag
    told the truth about the (user, product) pair, the wishlist table
    holds the same rows afterwards as before. *)
Theorem wishlist_toggle_twice
    (props : ProductCard.Props) (user : AuthContext.User)
    (w : World Tables.Db ProductCard.State)
    (Havailable : Tables.available 2 (Tables.outages (backend w)) = true) :
  ProductCard.isWishlisted
    (ui (ProductCard.wishlistClick props (Some user)
           (ProductCard.wishlistClick props (Some user) w)))
  = ProductCard.isWishlisted (ui w)
  /\ requests (ProductCard.wishlistClick props (Some user)
                 (ProductCard.wishlistClick props (Some user) w))
     = requests w ++
       (if ProductCard.isWishlisted (ui w)
        then [wishlist_delete (AuthContext.id user) (ProductCard.id props);
              wishlist_insert (AuthContext.id user) (ProductCard.id props)]
        else [wishlist_insert (AuthContext.id user) (ProductCard.id props);
              wishlist_delete (AuthContext.id user) (ProductCard.id props)])
  /\ (let sent :=
        skipn (List.length (requests w))
          (requests (ProductCard.wishlistClick props (Some user)
                       (ProductCard.wishlistClick props (Some user) w))) in
      List.length sent = 2%nat
      /\ List.length (filter is_mutation sent) = 2%nat
      /\ List.length (filter is_insert sent) = 1%nat
      /\ List.length (filter is_delete sent) = 1%nat)
  /\ (List.length
        (Tables.wishlist_rows (AuthContext.id user) (ProductCard.id props) (backend w))
      = (if ProductCard.isWishlisted (ui w) then 1%nat else 0%nat) ->
      Permutation
        (Tables.wishlist
           (backend (ProductCard.wishlistClick props (Some user)
                       (ProductCard.wishlistClick props (Some user) w))))
        (Tables.wishlist (backend w))
      /\ List.length
           (Tables.wishlist_rows (AuthContext.id user) (ProductCard.id props)
              (backend (ProductCard.wishlistClick props (Some user)
                          (ProductCard.wishlistClick props (Some user) w))))
         = List.length
             (Tables.wishlist_rows (AuthContext.id user) (ProductCard.id props)
                (backend w))).
Proof.
  set (u := AuthContext.id user). set (p := ProductCard.id props).
  destruct (wishlistClick_tables props user w 1 Havailable) as [Hfirst Hav1].
  cbv zeta in Hfirst. fold u p in Hfirst.
  set (w1 := ProductCard.wishlistClick props (Some user) w) in *.
  destruct (wishlistClick_tables props user w1 0 Hav1) as [Hsecond _].
  cbv zeta in Hsecond. fold u p in Hsecond.
  rewrite Hsecond, Hfirst. cbn [ui requests backend ProductCard.isWishlisted].
  assert (Hperm : forall l l' : list WishlistRow,
             Permutation l l' ->
             List.length (filter (Tables.wishlist_matches u p) l)
             = List.length (filter (Tables.wishlist_matches u p) l')).
  { intros l l' Hl. induction Hl; cbn; try congruence.
    - destruct (Tables.wishlist_matches u p x); cbn; congruence.
    - destruct (Tables.wishlist_matches u p x), (Tables.wishlist_matches u p y);
        reflexivity. }
  destruct (ProductCard.isWishlisted (ui w)); cbn [negb];
    (split; [reflexivity|]);
    (split; [now rewrite <- app_assoc|]);
    (split; [rewrite <- app_assoc, skipn_app, skipn_all, Nat.sub_diag; cbn; auto|]);
    intros Htruth; cbn; unfold Tables.wishlist_rows in *.
  - pose proof (wishlist_delete_insert u p _ Htruth) as Hback.
    split; [exact Hback | now apply Hperm].
  - rewrite (wishlist_insert_delete u p _ Htruth). split; [apply Permutation_refl | reflexivity].
Qed.

Lemma wishlist_toggle_twice_witness :
  let wished := Sample.fresh (Sample.store [] [Sample.kettle_wished] [] []) (Sample.card true) in
  Tables.available 2 (Tables.outages (backend wished)) = true
  /\ ProductCard.isWishlisted
       (ui (ProductCard.wishlistClick Sample.kettle (Some Sample.asha)
              (ProductCard.wishlistClick Sample.kettle (Some Sample.asha) wished))) = true
  /\ requests (ProductCard.wishlistClick Sample.kettle (Some Sample.asha)
                 (ProductCard.wishlistClick Sample.kettle (Some Sample.asha) wished))
     = [wishlist_delete "user-1" 7; wishlist_insert "user-1" 7]
  /\ Permutation
       (Tables.wishlist
          (backend (ProductCard.wishlistClick Sample.kettle (Some Sample.asha)
                      (ProductCard.wishlistClick Sample.kettle (Some Sample.asha) wished))))
       [Sample.kettle_wished].
Proof.
  intros wished. split; [reflexivity|].
  pose proof (wishlist_toggle_twice Sample.kettle Sample.asha wished eq_refl) as Htwice.
  destruct Htwice as (Hflag & Hrequests & _ & Hrows).
  split; [exact Hflag|]. split; [exact Hrequests|].
  exact (proj1 (Hrows eq_refl)).
Defined.

(* ===================================================================== *)
(** * Report generator                                                    *)
(* ===================================================================== *)

Section LineFacts.

Let nl : ascii := ascii_of_nat 10.

Lemma one_line_app (a b : string) :
  Spec.one_line (a ++ b) = Spec.one_line a && Spec.one_line b.
Proof.
  induction a as [|c a IH]; cbn [Spec.one_line String.append andb]; [reflexivity|].
  now rewrite IH, andb_assoc.
Qed.

Lemma one_line_join (sep : string) (l : list string) :
  Spec.one_line sep = true ->
  forallb Spec.one_line l = true ->
  Spec.one_line (Js.join sep l) = true.
Proof.
  intros Hsep. induction l as [|x [|y rest] IH]; cbn [Js.join forallb].
  - reflexivity.
  - now rewrite andb_true_r.
  - rewrite andb_true_iff. intros [Hx Hrest].
    rewrite !one_line_app, Hx, Hsep. cbn [andb]. now apply IH.
Qed.

Lemma lines_one_line (x : string) :
  Spec.one_line x = true -> Spec.lines x = [x].
Proof.
  unfold Spec.lines. induction x as [|c x IH]; cbn [Js.split_on Spec.one_line];
    [reflexivity|].
  rewrite andb_true_iff, negb_true_iff. intros [Hc Hx].
  now rewrite Hc, (IH Hx).
Qed.

Lemma lines_app (x rest : string) :
  Spec.one_line x = true ->
  Spec.lines (x ++ QuickActions.newline ++ rest) = x :: Spec.lines rest.
Proof.
  unfold Spec.lines, QuickActions.newline.
  induction x as [|c x IH]; cbn [Js.split_on Spec.one_line String.append].
  - intros _. now rewrite Ascii.eqb_refl.
  - rewrite andb_true_iff, negb_true_iff. intros [Hc Hx].
    rewrite Hc. cbn [String.append] in IH. now rewrite (IH Hx).
Qed.

(** A text made of one-line pieces joined by line breaks has those
    pieces for lines. *)
Lemma lines_join (l : list string) :
  l <> [] ->
  forallb Spec.one_line l = true ->
  Spec.lines (Js.join QuickActions.newline l) = l.
Proof.
  induction l as [|x [|y rest] IH]; intros Hne; [contradiction| |];
    cbn [Js.join forallb]; rewrite andb_true_iff; intros [Hx Hrest].
  - now apply lines_one_line.
  - rewrite lines_app by assumption. f_equal. now apply IH.
Qed.

End LineFacts.

Section ReportRuns.

Context {B : Type} `{Backend B}.

Variable format_date : string -> option string.
Variable Number_toString : number -> string.
Variable w : World B QuickActions.State.

Let reply := fst (serve orders_select_report (backend w)).

(** The rows of the orders whose dates are [dates]. *)
Let rows_of (orders : list OrderReportData) (dates : list string) : list string :=
  map (fun od => Js.join "," (QuickActions.fields Number_toString (fst od) (snd od)))
      (combine orders dates).

Lemma Array_map_csvRow (orders : list OrderReportData) (dates : list string) :
  map (fun order => format_date (report_order_date order)) orders = map Some dates ->
  Array_map (QuickActions.csvRow format_date Number_toString) orders
  = Ret (rows_of orders dates).
Proof.
  revert dates. induction orders as [|order orders IH]; intros [|date dates] Hdates;
    try discriminate; [reflexivity|].
  cbn in Hdates. injection Hdates as Hdate Hdates.
  cbn [Array_map]. unfold QuickActions.csvRow at 1. rewrite Hdate.
  rewrite (IH dates Hdates). reflexivity.
Qed.

Lemma reportClick_no_data :
  Postgrest.error reply = None ->
  Postgrest.data reply = None \/ Postgrest.data reply = Some [] ->
  QuickActions.reportClick format_date Number_toString w =
  {| backend := snd (serve orders_select_report (backend w));
     ui := {| QuickActions.isGeneratingReport := false |};
     toasts := (toasts w ++ [QuickActions.generating]) ++ [QuickActions.no_data];
     requests := requests w ++ [orders_select_report];
     console := console w;
     downloads := downloads w |}.
Proof.
  unfold reply, QuickActions.reportClick, click, QuickActions.handleGenerateReport.
  cbn. destruct (serve orders_select_report (backend w)) as [[data error] b]. cbn.
  intros -> [-> | ->]; reflexivity.
Qed.

Lemma reportClick_rows (orders : list OrderReportData) (dates : list string) :
  Postgrest.error reply = None ->
  Postgrest.data reply = Some orders ->
  orders <> [] ->
  map (fun order => format_date (report_order_date order)) orders = map Some dates ->
  QuickActions.reportClick format_date Number_toString w =
  {| backend := snd (serve orders_select_report (backend w));
     ui := {| QuickActions.isGeneratingReport := false |};
     toasts := (toasts w ++ [QuickActions.generating]) ++ [QuickActions.report_generated];
     requests := requests w ++ [orders_select_report];
     console := console w;
     downloads :=
       downloads w ++
       [{| blob_text :=
             Js.join QuickActions.newline
               (Js.join "," QuickActions.headers :: rows_of orders dates);
           blob_type := "text/csv;charset=utf-8;";
           download_name := "orders_report.csv" |}] |}.
Proof.
  unfold reply, QuickActions.reportClick, click, QuickActions.handleGenerateReport.
  cbn -[Array_map Js.join]. destruct (serve orders_select_report (backend w)) as [[data error] b].
  cbn -[Array_map Js.join]. intros -> -> Hne Hdates.
  destruct orders as [|order orders']; [contradiction|].
  cbn -[Array_map Js.join]. rewrite (Array_map_csvRow _ _ Hdates). reflexivity.
Qed.

Lemma Array_map_csvRow_invalid (orders : list OrderReportData) :
  In None (map (fun order => format_date (report_order_date order)) orders) ->
  Array_map (QuickActions.csvRow format_date Number_toString) orders
  = Throw {| message := "Invalid time value" |}.
Proof.
  induction orders as [|order orders IH]; intros Hin; [destruct Hin|].
  cbn [Array_map]. unfold QuickActions.csvRow at 1.
  destruct (format_date (report_order_date order)) as [date|] eqn:Hdate.
  - destruct Hin as [Hhere|Hlater]; [cbn in Hhere; congruence|].
    cbn. now rewrite (IH Hlater).
  - reflexivity.
Qed.

(** A date the formatter rejects ends the run in the [catch] block: no
    file, a console line and a destructive toast. *)
Lemma reportClick_invalid_date (orders : list OrderReportData) :
  Postgrest.error reply = None ->
  Postgrest.data reply = Some orders ->
  In None (map (fun order => format_date (report_order_date order)) orders) ->
  QuickActions.reportClick format_date Number_toString w =
  {| backend := snd (serve orders_select_report (backend w));
     ui := {| QuickActions.isGeneratingReport := false |};
     toasts := (toasts w ++ [QuickActions.generating])
               ++ [QuickActions.report_error {| message := "Invalid time value" |}];
     requests := requests w ++ [orders_select_report];
     console := console w ++ ["Error generating report:"];
     downloads := downloads w |}.
Proof.
  unfold reply, QuickActions.reportClick, click, QuickActions.handleGenerateReport.
  cbn -[Array_map Js.join]. destruct (serve orders_select_report (backend w)) as [[data error] b].
  cbn -[Array_map Js.join]. intros -> -> Hdates.
  destruct orders as [|order orders']; [destruct Hdates|].
  cbn -[Array_map Js.join]. rewrite (Array_map_csvRow_invalid _ Hdates). reflexivity.
Qed.

End ReportRuns.

Lemma report_rows_one_line (Number_toString : number -> string)
    (orders : list OrderReportData) (dates : list string) :
  forallb (fun od => forallb Spec.one_line
                       (QuickActions.fields Number_toString (fst od) (snd od)))
          (combine orders dates) = true ->
  forallb Spec.one_line (Spec.report_rows Number_toString orders dates) = true.
Proof.
  unfold Spec.report_rows. induction (combine orders dates) as [|od l IH];
    cbn [map forallb]; [reflexivity|].
  rewrite !andb_true_iff. intros [Hod Hl]. split; [|now apply IH].
  now apply one_line_join.
Qed.




(* ===================================================================== *)
(** * Further properties: the pages of the order list                     *)
(* ===================================================================== *)

Section Pages.

Lemma firstn_add_skipn {A : Type} (a b : nat) (l : list A) :
  firstn (a + b) l = firstn a l ++ firstn b (skipn a l).
Proof.
  revert l; induction a as [|a IH]; intros l; [reflexivity|].
  destruct l as [|x l]; cbn; [now rewrite firstn_nil | now rewrite IH].
Qed.

(** A page is the next ten orders after the pages before it. *)
Lemma currentOrders_chunk (filtered : list Order) (p : Z) :
  1 <= p ->
  OrdersPage.currentOrders filtered p
  = firstn 10 (skipn (10 * (Z.to_nat p - 1)) filtered).
Proof.
  intros Hp. rewrite currentOrders_unfold by assumption.
  replace (Z.to_nat ((p - 1) * 10)) with (10 * (Z.to_nat p - 1))%nat by lia.
  set (k := (10 * (Z.to_nat p - 1))%nat).
  destruct (Z.le_gt_cases (p * 10) (Z.of_nat (List.length filtered))) as [Hfull|Hlast].
  - f_equal. lia.
  - rewrite !firstn_all2; try reflexivity; rewrite length_skipn; lia.
Qed.

Lemma chunks_firstn (filtered : list Order) (k : nat) :
  flat_map (fun i => OrdersPage.currentOrders filtered (Z.of_nat i + 1)) (seq 0 k)
  = firstn (10 * k) filtered.
Proof.
  induction k as [|k IH]; [reflexivity|].
  rewrite seq_S, flat_map_app, IH. cbn [flat_map Nat.add].
  rewrite app_nil_r, currentOrders_chunk by lia.
  replace (10 * (Z.to_nat (Z.of_nat k + 1) - 1))%nat with (10 * k)%nat by lia.
  replace (10 * Datatypes.S k)%nat with (10 * k + 10)%nat by lia.
  symmetry. apply firstn_add_skipn.
Qed.

Lemma pageCount_nonneg (filtered : list Order) : 0 <= OrdersPage.pageCount filtered.
Proof. pose proof (pageCount_bounds filtered). lia. Qed.

Lemma pageCount_positive (filtered : list Order) :
  filtered <> [] <-> 1 <= OrdersPage.pageCount filtered.
Proof.
  pose proof (pageCount_bounds filtered) as Hb. split.
  - intros Hne. destruct filtered; [contradiction|]. cbn [List.length] in Hb. lia.
  - intros Hpc ->. cbn [List.length] in Hb. lia.
Qed.

(** X1: the pages 1 .. pageCount, one after the other, are the filtered
    orders: every order is on exactly one page, in the order of the
    list. *)
Theorem pages_partition_filtered (filtered : list Order) :
  flat_map (fun i => OrdersPage.currentOrders filtered (Z.of_nat i + 1))
           (seq 0 (Z.to_nat (OrdersPage.pageCount filtered)))
  = filtered.
Proof.
  rewrite chunks_firstn. apply firstn_all2.
  pose proof (pageCount_bounds filtered). lia.
Qed.

(** X2: every page before the last shows ten rows, and the last page
    shows what is left, between one and ten rows. *)
Theorem page_sizes (filtered : list Order) (p : Z)
    (Hp : 1 <= p <= OrdersPage.pageCount filtered) :
  (p < OrdersPage.pageCount filtered ->
   List.length (OrdersPage.currentOrders filtered p) = 10%nat)
  /\ (p = OrdersPage.pageCount filtered ->
      Z.of_nat (List.length (OrdersPage.currentOrders filtered p))
      = Z.of_nat (List.length filtered) - 10 * (p - 1)
      /\ (1 <= List.length (OrdersPage.currentOrders filtered p) <= 10)%nat).
Proof.
  pose proof (pageCount_bounds filtered) as Hb.
  rewrite currentOrders_chunk by lia.
  rewrite length_firstn, length_skipn. split; intros Hcase; [lia|]. split; lia.
Qed.

Lemma page_sizes_witness :
  1 <= 2 <= OrdersPage.pageCount (Sample.numbered 23)
  /\ List.length (OrdersPage.currentOrders (Sample.numbered 23) 2) = 10%nat.
Proof.
  assert (Hp : 1 <= 2 <= OrdersPage.pageCount (Sample.numbered 23))
    by (vm_compute; split; discriminate).
  split; [exact Hp|].
  apply (proj1 (page_sizes (Sample.numbered 23) 2 Hp)). vm_compute. reflexivity.
Defined.

(** X3: a page number beyond the page count shows no row, and a page
    number within it shows at least one: the table is empty exactly when
    the current page has run past the pages there are. *)
Theorem page_empty_iff_beyond (filtered : list Order) (p : Z) (Hp : 1 <= p) :
  OrdersPage.currentOrders filtered p = [] <-> OrdersPage.pageCount filtered < p.
Proof.
  pose proof (pageCount_bounds filtered) as Hb.
  rewrite currentOrders_chunk by assumption.
  rewrite <- length_zero_iff_nil, length_firstn, length_skipn. lia.
Qed.

Lemma page_empty_iff_beyond_witness :
  1 <= 4 /\ OrdersPage.currentOrders (Sample.numbered 23) 4 = [].
Proof.
  split; [lia|].
  apply (proj2 (page_empty_iff_beyond (Sample.numbered 23) 4 ltac:(lia))).
  vm_compute. reflexivity.
Defined.

(** X4: the guard that returns [null] never fires: the links are the
    offsets [currentPage - 2 + i], each clamped to [1, pageCount], for
    [i] below [min(5, pageCount)], so there are exactly
    [min(5, pageCount)] of them. *)
Theorem pageLinks_are_clamped_offsets (filtered : list Order) (currentPage : Z) :
  OrdersPage.pageLinks filtered currentPage
  = map (fun i => Z.max 1 (Z.min (currentPage - 2 + Z.of_nat i)
                                 (OrdersPage.pageCount filtered)))
        (seq 0 (Z.to_nat (Z.min 5 (OrdersPage.pageCount filtered))))
  /\ Z.of_nat (List.length (OrdersPage.pageLinks filtered currentPage))
     = Z.min 5 (OrdersPage.pageCount filtered).
Proof.
  pose proof (pageCount_bounds filtered) as Hb.
  assert (Hlinks : OrdersPage.pageLinks filtered currentPage
            = map (fun i => Z.max 1 (Z.min (currentPage - 2 + Z.of_nat i)
                                           (OrdersPage.pageCount filtered)))
                  (seq 0 (Z.to_nat (Z.min 5 (OrdersPage.pageCount filtered))))).
  { unfold OrdersPage.pageLinks.
    destruct (Z.gtb_spec (Z.of_nat (List.length filtered)) 0) as [Hsome|Hnone].
    - unfold Js.Array_from. set (pc := OrdersPage.pageCount filtered) in *.
      assert (Hpc : 1 <= pc) by lia.
      induction (seq 0 (Z.to_nat (Z.min 5 pc))) as [|i l IH]; [reflexivity|].
      cbn [map flat_map]. rewrite IH. unfold OrdersPage.pageNumber.
      destruct (Z.gtb_spec (Z.max 1 (Z.min (currentPage - 2 + Z.of_nat i) pc)) pc);
        [lia | reflexivity].
    - replace (OrdersPage.pageCount filtered) with 0 by lia. reflexivity. }
  split; [exact Hlinks|].
  rewrite Hlinks, length_map, length_seq. lia.
Qed.

End Pages.

Section PageClicks.

Context {B : Type} `{Backend B}.

Variable w : World B OrdersPage.State.

(** X5: a click on any page link that is rendered lands on a page that
    shows at least one row; the filtered orders are the same and nothing
    is sent or raised. *)
Theorem link_click_shows_rows (n : Z) (Hlink : In n (OrdersPage.links (ui w))) :
  OrdersPage.currentPage (ui (OrdersPage.linkClick n w)) = n
  /\ OrdersPage.filtered (ui (OrdersPage.linkClick n w)) = OrdersPage.filtered (ui w)
  /\ OrdersPage.rows (ui (OrdersPage.linkClick n w)) <> []
  /\ requests (OrdersPage.linkClick n w) = requests w
  /\ toasts (OrdersPage.linkClick n w) = toasts w.
Proof.
  apply pageLinks_in_range in Hlink.
  pose proof (pageCount_bounds (OrdersPage.filtered (ui w))) as Hb.
  unfold OrdersPage.linkClick, click. cbn -[OrdersPage.filteredOrders OrdersPage.currentOrders OrdersPage.pageCount Z.mul].
  repeat split.
  unfold OrdersPage.rows, OrdersPage.filtered in *.
  cbn -[OrdersPage.filteredOrders OrdersPage.currentOrders OrdersPage.pageCount Z.mul].
  rewrite currentOrders_chunk by lia.
  rewrite <- length_zero_iff_nil, length_firstn, length_skipn. lia.
Qed.

(** X6: from a page within the page count, "Previous" and "Next" stay
    within it and move by one; "Previous" on page 1 and "Next" on the
    last page change nothing at all. *)
Theorem previous_next_stay_in_range
    (Hin : 1 <= OrdersPage.currentPage (ui w)
           <= OrdersPage.pageCount (OrdersPage.filtered (ui w))) :
  (OrdersPage.currentPage (ui (OrdersPage.previousClick w))
   = Z.max 1 (OrdersPage.currentPage (ui w) - 1)
   /\ OrdersPage.currentPage (ui (OrdersPage.nextClick w))
      = Z.min (OrdersPage.pageCount (OrdersPage.filtered (ui w)))
              (OrdersPage.currentPage (ui w) + 1))
  /\ (1 <= OrdersPage.currentPage (ui (OrdersPage.previousClick w))
        <= OrdersPage.pageCount (OrdersPage.filtered (ui (OrdersPage.previousClick w)))
      /\ 1 <= OrdersPage.currentPage (ui (OrdersPage.nextClick w))
           <= OrdersPage.pageCount (OrdersPage.filtered (ui (OrdersPage.nextClick w))))
  /\ (OrdersPage.currentPage (ui w) = 1 -> ui (OrdersPage.previousClick w) = ui w)
  /\ (OrdersPage.currentPage (ui w) = OrdersPage.pageCount (OrdersPage.filtered (ui w)) ->
      ui (OrdersPage.nextClick w) = ui w).
Proof.
  unfold OrdersPage.previousClick, OrdersPage.nextClick, click. cbn -[OrdersPage.filteredOrders OrdersPage.currentOrders OrdersPage.pageCount Z.mul].
  unfold OrdersPage.filtered in *.
  cbn -[OrdersPage.filteredOrders OrdersPage.currentOrders OrdersPage.pageCount Z.mul].
  split; [split; lia|]. split; [split; lia|].
  destruct (ui w) as [o l e t f p so mo].
  cbn -[OrdersPage.filteredOrders OrdersPage.pageCount Z.mul] in *.
  split; intros Hp; f_equal; lia.
Qed.

(** X7: changing the search term or the status filter leaves the page
    number where it was.  When the new filtered orders have fewer pages
    than that, the table shows no row although orders match; "Next"
    then goes to the last page, which shows rows. *)
Theorem filter_change_keeps_page (w' : World B OrdersPage.State)
    (Hchange : (exists value, w' = OrdersPage.searchInput value w)
               \/ (exists value, w' = OrdersPage.filterClick value w)) :
  OrdersPage.currentPage (ui w') = OrdersPage.currentPage (ui w)
  /\ OrdersPage.orders (ui w') = OrdersPage.orders (ui w)
  /\ (1 <= OrdersPage.currentPage (ui w) ->
      OrdersPage.pageCount (OrdersPage.filtered (ui w')) < OrdersPage.currentPage (ui w) ->
      OrdersPage.rows (ui w') = []
      /\ (OrdersPage.filtered (ui w') <> [] ->
          OrdersPage.currentPage (ui (OrdersPage.nextClick w'))
          = OrdersPage.pageCount (OrdersPage.filtered (ui w'))
          /\ OrdersPage.rows (ui (OrdersPage.nextClick w')) <> [])).
Proof.
  assert (Hpage : OrdersPage.currentPage (ui w') = OrdersPage.currentPage (ui w)
                  /\ OrdersPage.orders (ui w') = OrdersPage.orders (ui w))
    by (destruct Hchange as [[value ->]|[value ->]]; split; reflexivity).
  destruct Hpage as [Hpage Horders]. split; [exact Hpage|]. split; [exact Horders|].
  intros Hp Hbeyond. rewrite <- Hpage in Hp, Hbeyond.
  pose proof (pageCount_bounds (OrdersPage.filtered (ui w'))) as Hb.
  split.
  - unfold OrdersPage.rows. rewrite currentOrders_chunk by assumption.
    rewrite <- length_zero_iff_nil, length_firstn, length_skipn. lia.
  - intros Hsome. apply pageCount_positive in Hsome.
    unfold OrdersPage.nextClick, click. cbn -[OrdersPage.filteredOrders OrdersPage.currentOrders OrdersPage.pageCount Z.mul].
    unfold OrdersPage.rows, OrdersPage.filtered in *.
  cbn -[OrdersPage.filteredOrders OrdersPage.currentOrders OrdersPage.pageCount Z.mul].
    split; [lia|].
    rewrite currentOrders_chunk by lia.
    rewrite <- length_zero_iff_nil, length_firstn, length_skipn. lia.
Qed.

End PageClicks.

Lemma link_click_shows_rows_witness :
  let w := Sample.fresh (Sample.shop []) (Sample.page (Sample.numbered 23)) in
  In 1 (OrdersPage.links (ui w))
  /\ OrdersPage.rows (ui (OrdersPage.linkClick 1 w)) <> [].
Proof.
  intros w.
  assert (Hlink : In 1 (OrdersPage.links (ui w))) by (vm_compute; left; reflexivity).
  split; [exact Hlink|]. apply (link_click_shows_rows w 1 Hlink).
Defined.

Lemma previous_next_stay_in_range_witness :
  let w := Sample.fresh (Sample.shop []) (Sample.page (Sample.numbered 23)) in
  1 <= OrdersPage.currentPage (ui w) <= OrdersPage.pageCount (OrdersPage.filtered (ui w))
  /\ ui (OrdersPage.previousClick w) = ui w
  /\ OrdersPage.currentPage (ui (OrdersPage.nextClick w)) = 2.
Proof.
  intros w.
  assert (Hin : 1 <= OrdersPage.currentPage (ui w)
                <= OrdersPage.pageCount (OrdersPage.filtered (ui w)))
    by (vm_compute; split; discriminate).
  split; [exact Hin|].
  destruct (previous_next_stay_in_range w Hin) as ((_ & Hnext) & _ & Hfirst & _).
  split; [exact (Hfirst eq_refl) | exact Hnext].
Defined.

Lemma filter_change_keeps_page_witness :
  let w := OrdersPage.linkClick 3
             (Sample.fresh (Sample.shop []) (Sample.page (Sample.numbered 23))) in
  let w' := OrdersPage.searchInput "a" w in
  OrdersPage.currentPage (ui w') = 3
  /\ List.length (OrdersPage.filtered (ui w')) = 23%nat
  /\ OrdersPage.rows (ui (OrdersPage.searchInput "b" w)) = []
  /\ OrdersPage.filtered (ui (OrdersPage.searchInput "b" w)) <> [].
Proof.
  intros w w'.
  split; [exact (proj1 (filter_change_keeps_page w w' (or_introl (ex_intro _ "a" eq_refl))))|].
  split; [reflexivity|].
  split.
  - exact (proj1 (proj2 (proj2 (filter_change_keeps_page w _
                    (or_introl (ex_intro _ "b" eq_refl))))
                    ltac:(vm_compute; discriminate) ltac:(vm_compute; reflexivity))).
  - vm_compute. discriminate.
Defined.

(* ===================================================================== *)
(** * Further properties: the search box and the status filter            *)
(* ===================================================================== *)

Section Search.

Lemma includes_empty (s : string) : Js.includes s "" = true.
Proof. destruct s; reflexivity. Qed.

Lemma string_app_assoc (a b c : string) :
  ((a ++ b) ++ c = a ++ (b ++ c))%string.
Proof. induction a as [|x a IH]; cbn; [reflexivity | now rewrite IH]. Qed.

Lemma includes_trans (a b c : string) :
  Js.includes a b = true -> Js.includes b c = true -> Js.includes a c = true.
Proof.
  rewrite !includes_iff. intros (pre & post & ->) (pre' & post' & ->).
  exists (pre ++ pre')%string, (post' ++ post)%string.
  now rewrite !string_app_assoc.
Qed.

Lemma filter_filter {A : Type} (f g : A -> bool) (l : list A) :
  filter f (filter g l) = filter (fun x => g x && f x) l.
Proof.
  induction l as [|x l IH]; cbn; [reflexivity|].
  destruct (g x); cbn; [destruct (f x); now rewrite IH | exact IH].
Qed.

Lemma filter_ext_in_bool {A : Type} (f g : A -> bool) (l : list A) :
  (forall x, In x l -> f x = g x) -> filter f l = filter g l.
Proof.
  induction l as [|x l IH]; intros Hfg; cbn; [reflexivity|].
  rewrite (Hfg x (or_introl eq_refl)), IH; [reflexivity|].
  intros y Hy. apply Hfg. now right.
Qed.

(** X8: with the search box empty every order passes the search, so
    only the status filter selects; with the filter on [all] as well, as
    when the page opens, the filtered orders are all the orders. *)
Theorem empty_search_selects_by_status (orders : list Order) (statusFilter : StatusFilter) :
  OrdersPage.filteredOrders orders "" statusFilter
  = filter (OrdersPage.matchesStatus statusFilter) orders
  /\ OrdersPage.filteredOrders orders "" all = orders.
Proof.
  assert (Hany : forall order, OrdersPage.matchesSearch "" order = true).
  { intros order. unfold OrdersPage.matchesSearch.
    cbn [Js.toLowerCase]. now rewrite includes_empty. }
  unfold OrdersPage.filteredOrders. split.
  - apply filter_ext_in_bool. intros order _. now rewrite Hany.
  - rewrite (filter_ext_in_bool _ (fun _ => true))
      by (intros order _; now rewrite Hany).
    induction orders as [|order orders IH]; cbn [filter]; [reflexivity | now rewrite IH].
Qed.



(** X10: a longer search term narrows the result.  When the new term
    contains the old one up to case (as when more characters are
    typed), the orders it selects are among those the old term
    selected, they are what searching within the old result would give,
    and the page count does not grow. *)
Theorem longer_term_narrows
    (orders : list Order) (old new : string) (statusFilter : StatusFilter)
    (Hlonger : Js.includes (Js.toLowerCase new) (Js.toLowerCase old) = true) :
  incl (OrdersPage.filteredOrders orders new statusFilter)
       (OrdersPage.filteredOrders orders old statusFilter)
  /\ OrdersPage.filteredOrders (OrdersPage.filteredOrders orders old statusFilter)
       new statusFilter
     = OrdersPage.filteredOrders orders new statusFilter
  /\ OrdersPage.pageCount (OrdersPage.filteredOrders orders new statusFilter)
     <= OrdersPage.pageCount (OrdersPage.filteredOrders orders old statusFilter).
Proof.
  assert (Hmatch : forall order,
             OrdersPage.matchesSearch new order = true ->
             OrdersPage.matchesSearch old order = true).
  { intros order. unfold OrdersPage.matchesSearch. rewrite !orb_true_iff.
    intros [[Hid|Hname]|Hemail];
      [left; left | left; right | right]; eapply includes_trans; eassumption. }
  assert (Hagain : OrdersPage.filteredOrders
                     (OrdersPage.filteredOrders orders old statusFilter) new statusFilter
                   = OrdersPage.filteredOrders orders new statusFilter).
  { unfold OrdersPage.filteredOrders. rewrite filter_filter.
    apply filter_ext_in_bool. intros order _.
    destruct (OrdersPage.matchesSearch new order) eqn:Hnew.
    - rewrite (Hmatch order Hnew). cbn. now rewrite andb_diag.
    - cbn. now rewrite andb_false_r. }
  split; [|split; [exact Hagain|]].
  - intros order Hin. rewrite <- Hagain in Hin.
    unfold OrdersPage.filteredOrders at 1 in Hin. now apply filter_In in Hin.
  - pose proof (pageCount_bounds (OrdersPage.filteredOrders orders new statusFilter)) as Hn.
    pose proof (pageCount_bounds (OrdersPage.filteredOrders orders old statusFilter)) as Ho.
    assert (Hlen : (List.length (OrdersPage.filteredOrders orders new statusFilter)
                    <= List.length (OrdersPage.filteredOrders orders old statusFilter))%nat).
    { rewrite <- Hagain. unfold OrdersPage.filteredOrders at 1. apply filter_length_le. }
    lia.
Qed.

Lemma longer_term_narrows_witness :
  Js.includes (Js.toLowerCase "Asha@") (Js.toLowerCase "ASH") = true
  /\ incl (OrdersPage.filteredOrders (Sample.numbered 3) "Asha@" all)
          (OrdersPage.filteredOrders (Sample.numbered 3) "ASH" all).
Proof.
  split; [reflexivity|].
  apply (longer_term_narrows (Sample.numbered 3) "ASH" "Asha@" all). reflexivity.
Defined.

(** X11: the search and the status filter can be applied one after the
    other, in either order, with the same result as together. *)
Theorem search_and_status_compose
    (orders : list Order) (searchTerm : string) (statusFilter : StatusFilter) :
  OrdersPage.filteredOrders (OrdersPage.filteredOrders orders searchTerm all) "" statusFilter
  = OrdersPage.filteredOrders orders searchTerm statusFilter
  /\ OrdersPage.filteredOrders (OrdersPage.filteredOrders orders "" statusFilter) searchTerm all
     = OrdersPage.filteredOrders orders searchTerm statusFilter.
Proof.
  assert (Hany : forall order, OrdersPage.matchesSearch "" order = true).
  { intros order. unfold OrdersPage.matchesSearch.
    cbn [Js.toLowerCase]. now rewrite includes_empty. }
  unfold OrdersPage.filteredOrders. rewrite !filter_filter.
  split; apply filter_ext_in_bool; intros order _; rewrite Hany;
    cbn [OrdersPage.matchesStatus andb];
    destruct (OrdersPage.matchesSearch searchTerm order),
             (OrdersPage.matchesStatus statusFilter order); reflexivity.
Qed.

End Search.

(* ===================================================================== *)
(** * Further properties: the status menu                                 *)
(* ===================================================================== *)

(** X12: in the status menu of a row exactly one entry is disabled, the
    one for the status the order has, so every entry that can be clicked
    asks for a different status. *)
Theorem statusMenu_disables_current (order : Order) :
  map fst (filter snd (OrdersPage.statusMenu order)) = [status order]
  /\ (forall newStatus,
        In (newStatus, false) (OrdersPage.statusMenu order) <-> newStatus <> status order)
  /\ List.length (filter (fun entry => negb (snd entry)) (OrdersPage.statusMenu order)) = 4%nat.
Proof.
  unfold OrdersPage.statusMenu. destruct (status order); cbn; repeat split;
    try (intros Hin; repeat (destruct Hin as [Hin|Hin]; try discriminate Hin);
         try contradiction; injection Hin as <-; discriminate);
    try (intros Hne; destruct newStatus; try contradiction; tauto).
Qed.

Section EveryStatusClick.

Context {B : Type} `{Backend B}.

Variable w : World B OrdersPage.State.
Variable orderId : string.
Variable newStatus : OrderStatus.

Lemma statusMenuClick_backend :
  backend (OrdersPage.statusMenuClick orderId newStatus w)
  = snd (serve (orders_update_status orderId newStatus) (backend w)).
Proof.
  unfold OrdersPage.statusMenuClick, click. rewrite run_updateOrderStatus. cbn zeta.
  destruct (Postgrest.error _) as [e|]; [reflexivity|].
  destruct (Postgrest.data _) as [[|u rest]|]; reflexivity.
Qed.

(** The orders after a click are the former ones with the status of
    those of the requested identifier set to some status, or the former
    ones as they were. *)
Lemma statusMenuClick_orders :
  OrdersPage.orders (ui (OrdersPage.statusMenuClick orderId newStatus w))
    = OrdersPage.orders (ui w)
  \/ exists written,
       OrdersPage.orders (ui (OrdersPage.statusMenuClick orderId newStatus w))
       = map (fun order => if String.eqb (id order) orderId
                           then with_status order written else order)
             (OrdersPage.orders (ui w)).
Proof.
  unfold OrdersPage.statusMenuClick, click. rewrite run_updateOrderStatus. cbn zeta.
  destruct (Postgrest.error _) as [e|]; [now left|].
  destruct (Postgrest.data _) as [[|u rest]|]; [now left | | now left].
  right. now exists (status u).
Qed.

Lemma statusMenuClick_cells :
  Spec.same_but_orders (ui w) (ui (OrdersPage.statusMenuClick orderId newStatus w))
  /\ exists t, toasts (OrdersPage.statusMenuClick orderId newStatus w) = toasts w ++ [t].
Proof.
  unfold OrdersPage.statusMenuClick, click. rewrite run_updateOrderStatus. cbn zeta.
  unfold Spec.same_but_orders.
  destruct (Postgrest.error _) as [e|]; [cbn; eauto 10|].
  destruct (Postgrest.data _) as [[|u rest]|]; cbn; eauto 10.
Qed.

(** X13: whatever the service replies, a click on a status entry sends
    exactly one request and raises exactly one toast; it changes no cell
    of the state other than the orders, and of the orders neither their
    number nor their identifiers, customers, dates, amounts, items or
    addresses. *)
Theorem status_click_frame :
  requests (OrdersPage.statusMenuClick orderId newStatus w)
    = requests w ++ [orders_update_status orderId newStatus]
  /\ (exists t, toasts (OrdersPage.statusMenuClick orderId newStatus w) = toasts w ++ [t])
  /\ Spec.same_but_orders (ui w) (ui (OrdersPage.statusMenuClick orderId newStatus w))
  /\ Forall2 Spec.same_but_status
       (OrdersPage.orders (ui w))
       (OrdersPage.orders (ui (OrdersPage.statusMenuClick orderId newStatus w))).
Proof.
  split; [apply statusMenuClick_requests|].
  destruct statusMenuClick_cells as [Hcells Htoast].
  split; [exact Htoast|]. split; [exact Hcells|].
  assert (Hsame : forall order, Spec.same_but_status order order)
    by (intros order; repeat split).
  destruct statusMenuClick_orders as [-> | [written ->]].
  - induction (OrdersPage.orders (ui w)); constructor; auto.
  - induction (OrdersPage.orders (ui w)) as [|order l IH]; cbn [map]; constructor; auto.
    destruct (String.eqb (id order) orderId); [repeat split | apply Hsame].
Qed.

(** X14: the order shown in the detail dialog is the one handed to
    [viewOrder]; opening the dialog changes nothing else, and a status
    click made afterwards, whatever the reply, leaves the dialog on the
    order as it was when opened. *)
Theorem dialog_keeps_opened_order (order : Order) :
  OrdersPage.selectedOrder (ui (OrdersPage.viewClick order w)) = Some order
  /\ OrdersPage.isViewModalOpen (ui (OrdersPage.viewClick order w)) = true
  /\ OrdersPage.orders (ui (OrdersPage.viewClick order w)) = OrdersPage.orders (ui w)
  /\ OrdersPage.currentPage (ui (OrdersPage.viewClick order w)) = OrdersPage.currentPage (ui w)
  /\ requests (OrdersPage.viewClick order w) = requests w
  /\ toasts (OrdersPage.viewClick order w) = toasts w
  /\ OrdersPage.selectedOrder
       (ui (OrdersPage.statusMenuClick orderId newStatus (OrdersPage.viewClick order w)))
     = Some order.
Proof.
  repeat split.
  set (opened := OrdersPage.viewClick order w).
  unfold OrdersPage.statusMenuClick, click. rewrite run_updateOrderStatus. cbn zeta.
  destruct (Postgrest.error _) as [e|]; [reflexivity|].
  destruct (Postgrest.data _) as [[|u rest]|]; reflexivity.
Qed.

End EveryStatusClick.

Section StatusSync.

Lemma map_status_unmatched (orderId : string) (newStatus : OrderStatus) (l : list Order) :
  filter (fun order => String.eqb (id order) orderId)
    (map (fun order => if String.eqb (id order) orderId
                       then with_status order newStatus else order) l) = [] ->
  map (fun order => if String.eqb (id order) orderId
                    then with_status order newStatus else order) l = l.
Proof.
  induction l as [|order l IH]; cbn [map filter]; [reflexivity|].
  destruct (String.eqb (id order) orderId) eqn:Hid; cbn [id with_status].
  - rewrite Hid. discriminate.
  - rewrite Hid. intros Hnil. now rewrite IH.
Qed.

Lemma updated_rows_status (orderId : string) (newStatus : OrderStatus) (l : list Order)
    (row : Order) :
  In row (filter (fun order => String.eqb (id order) orderId)
            (map (fun order => if String.eqb (id order) orderId
                               then with_status order newStatus else order) l)) ->
  status row = newStatus.
Proof.
  rewrite filter_In, in_map_iff. intros [(order & Hrow & _) Hid].
  destruct (String.eqb (id order) orderId) eqn:Horder.
  - now subst row.
  - subst row. congruence.
Qed.

(** X15: on the tables, when the page holds the orders of the table, it
    still does after a click on a status entry, whether the request goes
    through, finds no order or meets an outage. *)
Theorem status_click_keeps_in_sync
    (w : World Tables.Db OrdersPage.State) (orderId : string) (newStatus : OrderStatus)
    (Hsync : OrdersPage.orders (ui w) = Tables.orders (backend w)) :
  OrdersPage.orders (ui (OrdersPage.statusMenuClick orderId newStatus w))
  = Tables.orders (backend (OrdersPage.statusMenuClick orderId newStatus w)).
Proof.
  rewrite statusMenuClick_backend.
  pose proof (statusMenuClick_failed w orderId newStatus) as Hfailed.
  pose proof (statusMenuClick_no_rows w orderId newStatus) as Hnone.
  pose proof (statusMenuClick_rows w orderId newStatus) as Hrows.
  unfold OrdersPage.statusUpdateReply in *.
  unfold serve, Tables.Backend_Db in *.
  destruct (Tables.outages (backend w)) as [|[e|] rest] eqn:Houtages.
  - cbn [Tables.perform fst snd] in *.
    destruct (filter _ _) as [|row others] eqn:Hreply in Hnone, Hrows.
    + destruct (Hnone eq_refl (or_intror eq_refl)) as [-> _].
      cbn. rewrite Hsync. symmetry. now apply map_status_unmatched.
    + destruct (Hrows row others eq_refl eq_refl) as (-> & _).
      assert (Hrow : status row = newStatus).
      { apply (updated_rows_status orderId newStatus (Tables.orders (backend w))).
        cbn in Hreply. rewrite Hreply. now left. }
      cbn. now rewrite Hsync, Hrow.
  - cbn [fst snd] in *. destruct (Hfailed e eq_refl) as [-> _]. cbn. exact Hsync.
  - cbn [Tables.perform fst snd] in *.
    destruct (filter _ _) as [|row others] eqn:Hreply in Hnone, Hrows.
    + destruct (Hnone eq_refl (or_intror eq_refl)) as [-> _].
      cbn. rewrite Hsync. symmetry. now apply map_status_unmatched.
    + destruct (Hrows row others eq_refl eq_refl) as (-> & _).
      assert (Hrow : status row = newStatus).
      { apply (updated_rows_status orderId newStatus (Tables.orders (backend w))).
        cbn in Hreply. rewrite Hreply. now left. }
      cbn. now rewrite Hsync, Hrow.
Qed.

Lemma status_click_keeps_in_sync_witness :
  let w := Sample.fresh (Sample.shop []) (Sample.page (Sample.numbered 3)) in
  OrdersPage.orders (ui w) = Tables.orders (backend w)
  /\ OrdersPage.orders (ui (OrdersPage.statusMenuClick "B" shipped w))
     = Tables.orders (backend (OrdersPage.statusMenuClick "B" shipped w)).
Proof.
  intros w. split; [reflexivity|].
  apply (status_click_keeps_in_sync w "B" shipped). reflexivity.
Defined.

End StatusSync.

(* ===================================================================== *)
(** * Further properties: the product card                                *)
(* ===================================================================== *)

Section EveryCardClick.

Context {B : Type} `{Backend B}.

Variable props : ProductCard.Props.
Variable w : World B ProductCard.State.

(** The world after a handler that has raised [raised], sent [sent] and
    left the service in [b] and the card in [st]. *)
Let after (b : B) (st : ProductCard.State) (raised : list ToastOptions)
    (sent : list RemoteCall) : World B ProductCard.State :=
  {| backend := b; ui := st; toasts := toasts w ++ raised;
     requests := requests w ++ sent; console := console w;
     downloads := downloads w |}.

Let card (isWishlisted isLoadingWishlist isAddingToCart : bool) : ProductCard.State :=
  {| ProductCard.isWishlisted := isWishlisted;
     ProductCard.isLoadingWishlist := isLoadingWishlist;
     ProductCard.isAddingToCart := isAddingToCart |}.

(** X16: the guards come first.  Without a signed-in user either click
    raises the destructive toast "Login Required" and does nothing else;
    signed in but out of stock, "Add to Cart" raises the destructive
    toast "Out of Stock" and does nothing else.  Nothing is sent and the
    state of the card is untouched. *)
Theorem guards_short_circuit (user : AuthContext.User) :
  ProductCard.wishlistClick props None w
    = after (backend w) (ui w) [ProductCard.login_required "wishlist"] []
  /\ ProductCard.cartClick props None w
     = after (backend w) (ui w) [ProductCard.login_required "cart"] []
  /\ (ProductCard.inStock props = false ->
      ProductCard.cartClick props (Some user) w
      = after (backend w) (ui w) [ProductCard.out_of_stock] [])
  /\ variant (ProductCard.login_required "wishlist") = Some destructive
  /\ variant (ProductCard.login_required "cart") = Some destructive
  /\ variant ProductCard.out_of_stock = Some destructive.
Proof.
  unfold after. rewrite !app_nil_r.
  repeat split.
  intros Hstock. unfold ProductCard.cartClick, click, ProductCard.handleAddToCart.
  rewrite Hstock. reflexivity.
Qed.

Variable user : AuthContext.User.

Let user_id := AuthContext.id user.
Let product_id := ProductCard.id props.

(** What a click on the heart does, by the reply. *)
Lemma wishlistClick_cases :
  let request :=
    if ProductCard.isWishlisted (ui w)
    then wishlist_delete user_id product_id
    else wishlist_insert user_id product_id in
  ProductCard.wishlistClick props (Some user) w =
  match Postgrest.error (fst (serve request (backend w))) with
  | None =>
      after (snd (serve request (backend w)))
        (card (negb (ProductCard.isWishlisted (ui w))) false
              (ProductCard.isAddingToCart (ui w)))
        [if ProductCard.isWishlisted (ui w)
         then ProductCard.removed_from_wishlist props
         else ProductCard.added_to_wishlist props]
        [request]
  | Some e =>
      after (snd (serve request (backend w)))
        (card (ProductCard.isWishlisted (ui w)) false
              (ProductCard.isAddingToCart (ui w)))
        [ProductCard.wishlist_error e]
        [request]
  end.
Proof.
  unfold ProductCard.wishlistClick, click, ProductCard.handleToggleWishlist, after, card.
  fold user_id product_id.
  destruct (ProductCard.isWishlisted (ui w)) eqn:Hflag; cbn.
  - destruct (serve (wishlist_delete user_id product_id) (backend w)) as [[data [e|]] b];
      cbn; rewrite ?Hflag; reflexivity.
  - destruct (serve (wishlist_insert user_id product_id) (backend w)) as [[data [e|]] b];
      cbn; rewrite ?Hflag; reflexivity.
Qed.

(** X17: whatever the service replies, a click on the heart by a
    signed-in user sends exactly one request, the delete when the card
    is wishlisted and the insert otherwise, and raises exactly one
    toast; the flag flips exactly when the reply carries no error; the
    loading flag is off afterwards and the cart flag is untouched. *)
Theorem heart_click_frame :
  requests (ProductCard.wishlistClick props (Some user) w)
    = requests w ++
      [if ProductCard.isWishlisted (ui w)
       then wishlist_delete (AuthContext.id user) (ProductCard.id props)
       else wishlist_insert (AuthContext.id user) (ProductCard.id props)]
  /\ (exists t, toasts (ProductCard.wishlistClick props (Some user) w) = toasts w ++ [t])
  /\ (ProductCard.isWishlisted (ui (ProductCard.wishlistClick props (Some user) w))
      = negb (ProductCard.isWishlisted (ui w))
      <-> Postgrest.error
            (fst (serve (if ProductCard.isWishlisted (ui w)
                         then wishlist_delete (AuthContext.id user) (ProductCard.id props)
                         else wishlist_insert (AuthContext.id user) (ProductCard.id props))
                        (backend w))) = None)
  /\ ProductCard.isLoadingWishlist (ui (ProductCard.wishlistClick props (Some user) w)) = false
  /\ ProductCard.isAddingToCart (ui (ProductCard.wishlistClick props (Some user) w))
     = ProductCard.isAddingToCart (ui w).
Proof.
  pose proof wishlistClick_cases as Hcases. cbv zeta in Hcases.
  fold user_id product_id. rewrite Hcases. clear Hcases.
  destruct (Postgrest.error _) as [e|]; unfold after, card; cbn;
    (split; [reflexivity|]); (split; [eauto|]); (split; [|auto]).
  - split; [|discriminate]. destruct (ProductCard.isWishlisted (ui w)); discriminate.
  - split; reflexivity.
Qed.

(** What a click on "Add to Cart" does, by the replies. *)
Lemma cartClick_cases :
  ProductCard.inStock props = true ->
  let lookup := cart_items_select user_id product_id in
  let insert := cart_items_insert user_id product_id 1 in
  let settled := card (ProductCard.isWishlisted (ui w))
                      (ProductCard.isLoadingWishlist (ui w)) false in
  let found := fst (serve lookup (backend w)) in
  let b1 := snd (serve lookup (backend w)) in
  ProductCard.cartClick props (Some user) w =
  match Postgrest.error found, Postgrest.data found with
  | Some e, _ => after b1 settled [ProductCard.cart_error e] [lookup]
  | None, Some _ => after b1 settled [ProductCard.already_in_cart props] [lookup]
  | None, None =>
      match Postgrest.error (fst (serve insert b1)) with
      | Some e =>
          after (snd (serve insert b1)) settled [ProductCard.cart_error e] [lookup; insert]
      | None =>
          after (snd (serve insert b1)) settled [ProductCard.added_to_cart props]
            [lookup; insert]
      end
  end.
Proof.
  intros Hstock. cbv zeta.
  unfold ProductCard.cartClick, click, ProductCard.handleAddToCart, after, card.
  rewrite Hstock. cbn. fold user_id product_id.
  destruct (serve (cart_items_select user_id product_id) (backend w)) as [[data [e|]] b1];
    cbn; [reflexivity|].
  destruct data as [row|]; cbn; [reflexivity|].
  destruct (serve (cart_items_insert user_id product_id 1) b1) as [[data' [e|]] b2];
    cbn; rewrite <- app_assoc; reflexivity.
Qed.

(** X18: whatever the service replies, a click on "Add to Cart" by a
    signed-in user for a product in stock looks the pair up first and
    sends at most one more request, an insert of quantity 1, and that
    only when the look-up came back without error and without a row; it
    raises exactly one toast, leaves the adding flag off and does not
    touch the wishlisted flag. *)
Theorem cart_click_frame (Hstock : ProductCard.inStock props = true) :
  (requests (ProductCard.cartClick props (Some user) w)
     = requests w ++ [cart_items_select (AuthContext.id user) (ProductCard.id props)]
   \/ (requests (ProductCard.cartClick props (Some user) w)
         = requests w ++ [cart_items_select (AuthContext.id user) (ProductCard.id props);
                          cart_items_insert (AuthContext.id user) (ProductCard.id props) 1]
       /\ fst (serve (cart_items_select (AuthContext.id user) (ProductCard.id props))
                 (backend w))
          = {| Postgrest.data := None; Postgrest.error := None |}))
  /\ (exists t, toasts (ProductCard.cartClick props (Some user) w) = toasts w ++ [t])
  /\ ProductCard.isAddingToCart (ui (ProductCard.cartClick props (Some user) w)) = false
  /\ ProductCard.isWishlisted (ui (ProductCard.cartClick props (Some user) w))
     = ProductCard.isWishlisted (ui w).
Proof.
  pose proof (cartClick_cases Hstock) as Hcases. cbv zeta in Hcases.
  fold user_id product_id. rewrite Hcases. clear Hcases.
  destruct (serve (cart_items_select user_id product_id) (backend w)) as [[data [e|]] b1];
    cbn [fst snd Postgrest.error Postgrest.data].
  - unfold after, card; cbn. split; [now left|]. split; [eauto | auto].
  - destruct data as [row|].
    + unfold after, card; cbn. split; [now left|]. split; [eauto | auto].
    + destruct (Postgrest.error (fst (serve (cart_items_insert user_id product_id 1) b1)))
        as [e|]; unfold after, card; cbn;
        (split; [right; split; reflexivity|]); (split; [eauto | auto]).
Qed.

End EveryCardClick.

Lemma cart_click_frame_witness :
  let w := Sample.fresh (Sample.store [] [] [] [None; Some Sample.timeout]) (Sample.card false) in
  ProductCard.inStock Sample.kettle = true
  /\ ProductCard.isAddingToCart (ui (ProductCard.cartClick Sample.kettle (Some Sample.asha) w))
     = false
  /\ toasts (ProductCard.cartClick Sample.kettle (Some Sample.asha) w)
     = [ProductCard.cart_error Sample.timeout].
Proof.
  intros w. split; [reflexivity|].
  split; [apply (cart_click_frame Sample.kettle w Sample.asha eq_refl) | reflexivity].
Defined.

Lemma guards_short_circuit_witness :
  let w := Sample.fresh (Sample.store [] [] [] []) (Sample.card false) in
  ProductCard.inStock Sample.teapot = false
  /\ ProductCard.cartClick Sample.teapot (Some Sample.asha) w
     = {| backend := backend w; ui := ui w; toasts := [ProductCard.out_of_stock];
          requests := []; console := []; downloads := [] |}.
Proof.
  intros w. split; [reflexivity|].
  exact (proj1 (proj2 (proj2 (guards_short_circuit Sample.teapot w Sample.asha))) eq_refl).
Defined.

Section MountCheck.

Context {B : Type} `{Backend B}.

Variable props : ProductCard.Props.
Variable w : World B ProductCard.State.

(** What the check run on mount does, by the reply. *)
Lemma mount_cases (user : AuthContext.User) :
  let lookup := wishlist_select (AuthContext.id user) (ProductCard.id props) in
  let found := fst (serve lookup (backend w)) in
  ProductCard.mount props (Some user) w =
  {| backend := snd (serve lookup (backend w));
     ui := {| ProductCard.isWishlisted :=
                match Postgrest.error found, Postgrest.data found with
                | Some _, _ => ProductCard.isWishlisted (ui w)
                | None, Some _ => true
                | None, None => false
                end;
              ProductCard.isLoadingWishlist := false;
              ProductCard.isAddingToCart := ProductCard.isAddingToCart (ui w) |};
     toasts := toasts w;
     requests := requests w ++ [lookup];
     console := console w ++
                match Postgrest.error found with
                | Some e => [("Error checking wishlist status: " ++ message e)%string]
                | None => []
                end;
     downloads := downloads w |}.
Proof.
  cbv zeta. unfold ProductCard.mount, ProductCard.checkWishlistStatus. cbn.
  destruct (serve (wishlist_select (AuthContext.id user) (ProductCard.id props)) (backend w))
    as [[data [e|]] b]; cbn.
  - reflexivity.
  - rewrite app_nil_r. destruct data; reflexivity.
Qed.

(** X19: the wishlist check made on mount never raises a toast.
    Without a user it does nothing at all.  With a user it sends the one
    look-up and leaves the loading flag off; a reply without error sets
    the wishlisted flag to whether a row came back; a reply with an
    error leaves the flag as it was and writes one line to the
    console. *)
Theorem mount_check_is_silent (user : AuthContext.User) :
  ProductCard.mount props None w = w
  /\ toasts (ProductCard.mount props (Some user) w) = toasts w
  /\ requests (ProductCard.mount props (Some user) w)
     = requests w ++ [wishlist_select (AuthContext.id user) (ProductCard.id props)]
  /\ ProductCard.isLoadingWishlist (ui (ProductCard.mount props (Some user) w)) = false
  /\ (forall e,
        Postgrest.error
          (fst (serve (wishlist_select (AuthContext.id user) (ProductCard.id props))
                  (backend w))) = Some e ->
        ProductCard.isWishlisted (ui (ProductCard.mount props (Some user) w))
          = ProductCard.isWishlisted (ui w)
        /\ console (ProductCard.mount props (Some user) w)
           = console w ++ [("Error checking wishlist status: " ++ message e)%string])
  /\ (Postgrest.error
        (fst (serve (wishlist_select (AuthContext.id user) (ProductCard.id props))
                (backend w))) = None ->
      ProductCard.isWishlisted (ui (ProductCard.mount props (Some user) w))
        = match Postgrest.data
                  (fst (serve (wishlist_select (AuthContext.id user) (ProductCard.id props))
                          (backend w)))
          with Some _ => true | None => false end
      /\ console (ProductCard.mount props (Some user) w) = console w).
Proof.
  split; [reflexivity|].
  pose proof (mount_cases user) as Hmount. cbv zeta in Hmount. rewrite Hmount. clear Hmount.
  cbn [toasts requests ui console ProductCard.isLoadingWishlist ProductCard.isWishlisted].
  split; [reflexivity|]. split; [reflexivity|]. split; [reflexivity|]. split.
  - intros e Hfailed. rewrite Hfailed. split; reflexivity.
  - intros Hok. rewrite Hok. split; [reflexivity | apply app_nil_r].
Qed.

End MountCheck.

Lemma mount_check_is_silent_witness :
  let w := Sample.fresh (Sample.store [] [Sample.kettle_wished] [] [Some Sample.timeout])
             (Sample.card false) in
  ProductCard.isWishlisted (ui (ProductCard.mount Sample.kettle (Some Sample.asha) w)) = false
  /\ console (ProductCard.mount Sample.kettle (Some Sample.asha) w)
     = ["Error checking wishlist status: Failed to fetch"]
  /\ toasts (ProductCard.mount Sample.kettle (Some Sample.asha) w) = [].
Proof.
  intros w.
  pose proof (mount_check_is_silent Sample.kettle w Sample.asha) as (_ & Hsilent & _ & _ & Herr & _).
  destruct (Herr Sample.timeout eq_refl) as [Hflag Hline].
  split; [exact Hflag|]. split; [exact Hline | exact Hsilent].
Defined.

Section CardOnTables.

Variable props : ProductCard.Props.
Variable user : AuthContext.User.
Variable w : World Tables.Db ProductCard.State.

Let u := AuthContext.id user.
Let p := ProductCard.id props.

Lemma mount_on_tables (n : nat) :
  Tables.available (Datatypes.S n) (Tables.outages (backend w)) = true ->
  ProductCard.mount props (Some user) w =
  {| backend := Tables.after_request (backend w);
     ui := {| ProductCard.isWishlisted :=
                match Tables.wishlist_rows u p (backend w) with
                | [] => false
                | [_] => true
                | _ => ProductCard.isWishlisted (ui w)
                end;
              ProductCard.isLoadingWishlist := false;
              ProductCard.isAddingToCart := ProductCard.isAddingToCart (ui w) |};
     toasts := toasts w;
     requests := requests w ++ [wishlist_select u p];
     console := console w ++
                match Tables.wishlist_rows u p (backend w) with
                | [] | [_] => []
                | _ => ["Error checking wishlist status: JSON object requested, multiple (or no) rows returned"]
                end;
     downloads := downloads w |}
  /\ Tables.available n (Tables.outages (Tables.after_request (backend w))) = true.
Proof.
  intros Hav.
  destruct (serve_available (wishlist_select u p) (backend w) n Hav) as [Hserve Hav'].
  split; [|exact Hav'].
  pose proof (mount_cases props w user) as Hmount. cbv zeta in Hmount.
  fold u p in Hmount. rewrite Hmount, Hserve. clear Hmount.
  unfold Tables.perform.
  change (filter (Tables.wishlist_matches u p) (Tables.wishlist (Tables.after_request (backend w))))
    with (Tables.wishlist_rows u p (backend w)).
  destruct (Tables.wishlist_rows u p (backend w)) as [|row [|row' rows]]; reflexivity.
Qed.

(** X20: on the tables, with the service available, the check made on
    mount reads the wishlist without changing any table: it sets the
    flag to false when the pair has no row and to true when it has one;
    when the pair has several rows the look-up fails, the flag stays as
    it was and a line goes to the console. *)
Theorem mount_reads_the_wishlist
    (Havailable : Tables.available 1 (Tables.outages (backend w)) = true) :
  (Tables.wishlist (backend (ProductCard.mount props (Some user) w))
     = Tables.wishlist (backend w)
   /\ Tables.cart_items (backend (ProductCard.mount props (Some user) w))
      = Tables.cart_items (backend w)
   /\ Tables.orders (backend (ProductCard.mount props (Some user) w))
      = Tables.orders (backend w))
  /\ (List.length (Tables.wishlist_rows (AuthContext.id user) (ProductCard.id props)
                     (backend w)) = 0%nat ->
      ProductCard.isWishlisted (ui (ProductCard.mount props (Some user) w)) = false)
  /\ (List.length (Tables.wishlist_rows (AuthContext.id user) (ProductCard.id props)
                     (backend w)) = 1%nat ->
      ProductCard.isWishlisted (ui (ProductCard.mount props (Some user) w)) = true)
  /\ ((2 <= List.length (Tables.wishlist_rows (AuthContext.id user) (ProductCard.id props)
                           (backend w)))%nat ->
      ProductCard.isWishlisted (ui (ProductCard.mount props (Some user) w))
        = ProductCard.isWishlisted (ui w)
      /\ List.length (console (ProductCard.mount props (Some user) w))
         = Datatypes.S (List.length (console w))).
Proof.
  destruct (mount_on_tables 0 Havailable) as [-> _]. fold u p.
  cbn [backend ui console ProductCard.isWishlisted].
  split; [repeat split|].
  destruct (Tables.wishlist_rows u p (backend w)) as [|row [|row' rows]];
    (split; [intros Hlen | split; intros Hlen]);
    cbn [List.length] in Hlen; try discriminate Hlen; try lia; try reflexivity.
  split; [reflexivity|]. rewrite length_app. cbn [List.length]. lia.
Qed.

(** X21: on the tables, with the service available and the pair held
    at most once, the check made on mount followed by two clicks on the
    heart brings back the rows of the wishlist and leaves the flag
    telling whether the pair is held. *)
Theorem mount_then_toggle_twice
    (Havailable : Tables.available 3 (Tables.outages (backend w)) = true)
    (Honce : (List.length (Tables.wishlist_rows (AuthContext.id user) (ProductCard.id props)
                             (backend w)) <= 1)%nat) :
  Permutation
    (Tables.wishlist
       (backend (ProductCard.wishlistClick props (Some user)
                   (ProductCard.wishlistClick props (Some user)
                      (ProductCard.mount props (Some user) w)))))
    (Tables.wishlist (backend w))
  /\ ProductCard.isWishlisted
       (ui (ProductCard.wishlistClick props (Some user)
              (ProductCard.wishlistClick props (Some user)
                 (ProductCard.mount props (Some user) w))))
     = (List.length (Tables.wishlist_rows (AuthContext.id user) (ProductCard.id props)
                       (backend w)) =? 1)%nat.
Proof.
  fold u p in Honce |- *.
  destruct (mount_on_tables 2 Havailable) as [Hmount Hav2].
  set (w0 := ProductCard.mount props (Some user) w) in *.
  assert (Hav2' : Tables.available 2 (Tables.outages (backend w0)) = true)
    by (rewrite Hmount; exact Hav2).
  destruct (wishlistClick_tables props user w0 1 Hav2') as [Hfirst Hav1].
  cbv zeta in Hfirst. fold u p in Hfirst.
  set (w1 := ProductCard.wishlistClick props (Some user) w0) in *.
  destruct (wishlistClick_tables props user w1 0 Hav1) as [Hsecond _].
  cbv zeta in Hsecond. fold u p in Hsecond.
  rewrite Hsecond, Hfirst. cbn [ui backend ProductCard.isWishlisted].
  rewrite Bool.negb_involutive.
  assert (Hflag : ProductCard.isWishlisted (ui w0)
                  = (List.length (Tables.wishlist_rows u p (backend w)) =? 1)%nat
                  /\ Tables.wishlist (backend w0) = Tables.wishlist (backend w)).
  { rewrite Hmount. cbn [ui backend ProductCard.isWishlisted].
    destruct (Tables.wishlist_rows u p (backend w)) as [|row [|row' rows]];
      cbn in Honce |- *; try lia; split; reflexivity. }
  destruct Hflag as [Hflag Hrows]. split; [|exact Hflag].
  rewrite Hflag.
  destruct (Nat.eqb_spec (List.length (Tables.wishlist_rows u p (backend w))) 1) as [Hone|Hnone];
    cbn [negb Tables.perform snd Tables.wishlist Tables.with_tables Tables.after_request];
    rewrite Hrows.
  - now apply wishlist_delete_insert.
  - rewrite wishlist_insert_delete; [apply Permutation_refl|].
    unfold Tables.wishlist_rows in *. lia.
Qed.

(** What a click on "Add to Cart" does on the tables, by the rows the
    pair has in the cart. *)
Lemma cartClick_on_tables :
  ProductCard.inStock props = true ->
  Tables.available 2 (Tables.outages (backend w)) = true ->
  let settled :=
    {| ProductCard.isWishlisted := ProductCard.isWishlisted (ui w);
       ProductCard.isLoadingWishlist := ProductCard.isLoadingWishlist (ui w);
       ProductCard.isAddingToCart := false |} in
  ProductCard.cartClick props (Some user) w =
  match Tables.cart_rows u p (backend w) with
  | [] =>
      {| backend :=
           snd (Tables.perform (cart_items_insert u p 1)
                  (Tables.after_request (Tables.after_request (backend w))));
         ui := settled;
         toasts := toasts w ++ [ProductCard.added_to_cart props];
         requests := requests w ++ [cart_items_select u p; cart_items_insert u p 1];
         console := console w; downloads := downloads w |}
  | [_] =>
      {| backend := Tables.after_request (backend w);
         ui := settled;
         toasts := toasts w ++ [ProductCard.already_in_cart props];
         requests := requests w ++ [cart_items_select u p];
         console := console w; downloads := downloads w |}
  | _ =>
      {| backend := Tables.after_request (backend w);
         ui := settled;
         toasts := toasts w ++
                   [ProductCard.cart_error
                      {| message := "JSON object requested, multiple (or no) rows returned" |}];
         requests := requests w ++ [cart_items_select u p];
         console := console w; downloads := downloads w |}
  end.
Proof.
  intros Hstock Hav. cbv zeta.
  destruct (serve_available (cart_items_select u p) (backend w) 1 Hav) as [Hserve Hav'].
  destruct (serve_available (cart_items_insert u p 1) _ 0 Hav') as [Hinsert _].
  pose proof (cartClick_cases props w user Hstock) as Hcases. cbv zeta in Hcases.
  fold u p in Hcases. rewrite Hcases, Hserve. clear Hcases.
  change (snd (Tables.perform (cart_items_select u p) (Tables.after_request (backend w))))
    with (Tables.after_request (backend w)).
  change (fst (Tables.perform (cart_items_select u p) (Tables.after_request (backend w))))
    with (Tables.maybeSingle (map cart_product_id (Tables.cart_rows u p (backend w)))).
  destruct (Tables.cart_rows u p (backend w)) as [|row [|row' rows]];
    cbn [fst snd map Tables.maybeSingle Tables.ok Tables.failed Postgrest.error Postgrest.data];
    try reflexivity.
  rewrite Hinsert. reflexivity.
Qed.

(** X22: on the tables, with the service available, a click on "Add to
    Cart" leaves the pair with one row when it had none or one, and with
    the rows it had when it had several: the number of rows of the pair
    afterwards is the larger of 1 and the number before.  No other row
    of the cart changes. *)
Theorem cart_click_row_count
    (Hstock : ProductCard.inStock props = true)
    (Havailable : Tables.available 2 (Tables.outages (backend w)) = true) :
  List.length (Tables.cart_rows (AuthContext.id user) (ProductCard.id props)
                 (backend (ProductCard.cartClick props (Some user) w)))
  = Nat.max 1 (List.length (Tables.cart_rows (AuthContext.id user) (ProductCard.id props)
                              (backend w)))
  /\ filter (fun row => negb (Tables.cart_matches (AuthContext.id user) (ProductCard.id props) row))
       (Tables.cart_items (backend (ProductCard.cartClick props (Some user) w)))
     = filter (fun row => negb (Tables.cart_matches (AuthContext.id user) (ProductCard.id props) row))
         (Tables.cart_items (backend w)).
Proof.
  pose proof (cartClick_on_tables Hstock Havailable) as Hclick. cbv zeta in Hclick.
  fold u p. rewrite Hclick. clear Hclick.
  unfold Tables.cart_rows.
  destruct (filter (Tables.cart_matches u p) (Tables.cart_items (backend w)))
    as [|row [|row' rows]] eqn:Hrows; cbn [backend Tables.perform snd Tables.cart_items
                                           Tables.with_tables Tables.after_request].
  - rewrite !filter_app, Hrows. cbn [filter app List.length].
    unfold Tables.cart_matches at 1 3. cbn [cart_user_id cart_product_id].
    rewrite String.eqb_refl, Z.eqb_refl. cbn. split; [reflexivity | apply app_nil_r].
  - rewrite Hrows. split; reflexivity.
  - rewrite Hrows. cbn [List.length]. split; [lia | reflexivity].
Qed.

End CardOnTables.

Lemma mount_reads_the_wishlist_witness :
  let w := Sample.fresh (Sample.store [] [Sample.kettle_wished] [] []) (Sample.card false) in
  Tables.available 1 (Tables.outages (backend w)) = true
  /\ ProductCard.isWishlisted (ui (ProductCard.mount Sample.kettle (Some Sample.asha) w)) = true.
Proof.
  intros w. split; [reflexivity|].
  exact (proj1 (proj2 (proj2 (mount_reads_the_wishlist Sample.kettle Sample.asha w eq_refl)))
           eq_refl).
Defined.

Lemma mount_then_toggle_twice_witness :
  let w := Sample.fresh (Sample.store [] [Sample.kettle_wished] [] []) (Sample.card false) in
  Tables.available 3 (Tables.outages (backend w)) = true
  /\ Permutation
       (Tables.wishlist
          (backend (ProductCard.wishlistClick Sample.kettle (Some Sample.asha)
                      (ProductCard.wishlistClick Sample.kettle (Some Sample.asha)
                         (ProductCard.mount Sample.kettle (Some Sample.asha) w)))))
       [Sample.kettle_wished].
Proof.
  intros w. split; [reflexivity|].
  apply (mount_then_toggle_twice Sample.kettle Sample.asha w eq_refl).
  cbn. lia.
Defined.

Lemma cart_click_row_count_witness :
  let w := Sample.fresh (Sample.store [] [] [Sample.kettle_in_cart; Sample.kettle_in_cart] [])
             (Sample.card false) in
  ProductCard.inStock Sample.kettle = true
  /\ Tables.available 2 (Tables.outages (backend w)) = true
  /\ List.length (Tables.cart_rows "user-1" 7
                    (backend (ProductCard.cartClick Sample.kettle (Some Sample.asha) w)))
     = 2%nat.
Proof.
  intros w. split; [reflexivity|]. split; [reflexivity|].
  exact (proj1 (cart_click_row_count Sample.kettle Sample.asha w eq_refl eq_refl)).
Defined.

(* ===================================================================== *)
(** * Further properties: the report                                      *)
(* ===================================================================== *)

Section EveryReport.

Context {B : Type} `{Backend B}.

Variable format_date : string -> option string.
Variable Number_toString : number -> string.
Variable w : World B QuickActions.State.

Let reply := fst (serve orders_select_report (backend w)).
Let w' := QuickActions.reportClick format_date Number_toString w.

Lemma dates_format_or_not (l : list (option string)) :
  (exists dates, l = map Some dates) \/ In None l.
Proof.
  induction l as [|[date|] l [[dates ->]|Hbad]].
  - left. now exists [].
  - left. now exists (date :: dates).
  - right. now right.
  - right. now left.
  - right. now left.
Qed.

Lemma reportClick_failed (e : JsError) :
  Postgrest.error reply = Some e ->
  w' =
  {| backend := snd (serve orders_select_report (backend w));
     ui := {| QuickActions.isGeneratingReport := false |};
     toasts := (toasts w ++ [QuickActions.generating]) ++ [QuickActions.report_error e];
     requests := requests w ++ [orders_select_report];
     console := console w ++ ["Error generating report:"];
     downloads := downloads w |}.
Proof.
  unfold w', reply, QuickActions.reportClick, click, QuickActions.handleGenerateReport.
  cbn -[Array_map Js.join]. destruct (serve orders_select_report (backend w)) as [[data error] b].
  cbn -[Array_map Js.join]. intros ->. reflexivity.
Qed.

(** The four ways a run of the report can go. *)
Lemma reportClick_outcomes :
  exists (raised : ToastOptions) (logged : list string) (saved : list Download),
    w' =
    {| backend := snd (serve orders_select_report (backend w));
       ui := {| QuickActions.isGeneratingReport := false |};
       toasts := (toasts w ++ [QuickActions.generating]) ++ [raised];
       requests := requests w ++ [orders_select_report];
       console := console w ++ logged;
       downloads := downloads w ++ saved |}
    /\ ((raised = QuickActions.report_generated /\ logged = []
         /\ exists text,
              saved = [{| blob_text := text; blob_type := "text/csv;charset=utf-8;";
                          download_name := "orders_report.csv" |}])
        \/ (raised = QuickActions.no_data /\ logged = [] /\ saved = [])
        \/ (exists e, raised = QuickActions.report_error e
                      /\ logged = ["Error generating report:"] /\ saved = [])).
Proof.
  destruct (Postgrest.error reply) as [e|] eqn:Herror.
  - exists (QuickActions.report_error e), ["Error generating report:"], [].
    rewrite app_nil_r. split; [now apply reportClick_failed | eauto 10].
  - destruct (Postgrest.data reply) as [[|order orders]|] eqn:Hdata.
    + exists QuickActions.no_data, [], []. rewrite !app_nil_r.
      split; [apply reportClick_no_data; auto | auto].
    + destruct (dates_format_or_not
                  (map (fun o => format_date (report_order_date o)) (order :: orders)))
        as [[dates Hdates]|Hbad].
      * eexists QuickActions.report_generated, [], [_]. rewrite app_nil_r.
        split; [apply (reportClick_rows format_date Number_toString w (order :: orders) dates);
                auto; discriminate|].
        left. eauto.
      * eexists (QuickActions.report_error _), ["Error generating report:"], [].
        rewrite app_nil_r.
        split; [apply (reportClick_invalid_date format_date Number_toString w (order :: orders));
                auto|].
        right. right. eauto.
    + exists QuickActions.no_data, [], []. rewrite !app_nil_r.
      split; [apply reportClick_no_data; auto | auto].
Qed.

(** X23: whatever the service replies and whatever the dates are, a run
    of the report sends the one read of the orders and no mutation,
    raises the progress toast and exactly one more toast, produces at
    most one file, named orders_report.csv, and ends with the generating
    flag off; the toast "Report Generated Successfully" is raised
    exactly when a file is produced. *)
Theorem report_frame :
  requests w' = requests w ++ [orders_select_report]
  /\ is_mutation orders_select_report = false
  /\ QuickActions.isGeneratingReport (ui w') = false
  /\ (exists raised, toasts w' = toasts w ++ [QuickActions.generating; raised])
  /\ (downloads w' = downloads w
      \/ exists d, downloads w' = downloads w ++ [d]
                   /\ download_name d = "orders_report.csv")
  /\ (toasts w' = toasts w ++ [QuickActions.generating; QuickActions.report_generated]
      <-> exists d, downloads w' = downloads w ++ [d]).
Proof.
  destruct reportClick_outcomes as (raised & logged & saved & -> & Hcase).
  cbn [requests ui toasts downloads QuickActions.isGeneratingReport].
  rewrite <- app_assoc. cbn [app].
  split; [reflexivity|]. split; [reflexivity|]. split; [reflexivity|].
  split; [eauto|].
  assert (Hnone : forall d, downloads w ++ [] = downloads w ++ [d] -> False).
  { intros d Heq. apply (f_equal (@List.length _)) in Heq.
    rewrite !length_app in Heq. cbn in Heq. lia. }
  destruct Hcase as [(-> & _ & text & ->) | [(-> & _ & ->) | (e & -> & _ & ->)]].
  - split; [right; eauto|]. split; eauto.
  - split; [left; apply app_nil_r|]. split.
    + intros Heq. apply app_inv_head in Heq. discriminate.
    + intros [d Hd]. destruct (Hnone d Hd).
  - split; [left; apply app_nil_r|]. split.
    + intros Heq. apply app_inv_head in Heq. discriminate.
    + intros [d Hd]. destruct (Hnone d Hd).
Qed.

(** X24: a run of the report that fails, because the read comes back
    with an error or because a date cannot be formatted, produces no
    file; it writes a line to the console and raises, after the progress
    toast, a destructive toast that carries the message of the error,
    or a fixed text when the error has no message. *)
Theorem report_failure (e : JsError) (orders : list OrderReportData)
    (Hfailure :
       Postgrest.error reply = Some e
       \/ (Postgrest.error reply = None
           /\ Postgrest.data reply = Some orders
           /\ In None (map (fun order => format_date (report_order_date order)) orders)
           /\ e = {| message := "Invalid time value" |})) :
  downloads w' = downloads w
  /\ console w' = console w ++ ["Error generating report:"]
  /\ toasts w' = toasts w ++ [QuickActions.generating; QuickActions.report_error e]
  /\ variant (QuickActions.report_error e) = Some destructive
  /\ (message e <> "" -> description (QuickActions.report_error e) = message e)
  /\ (message e = "" ->
      description (QuickActions.report_error e) = "An unexpected error occurred.")
  /\ QuickActions.isGeneratingReport (ui w') = false.
Proof.
  assert (Hworld : w' =
    {| backend := snd (serve orders_select_report (backend w));
       ui := {| QuickActions.isGeneratingReport := false |};
       toasts := (toasts w ++ [QuickActions.generating]) ++ [QuickActions.report_error e];
       requests := requests w ++ [orders_select_report];
       console := console w ++ ["Error generating report:"];
       downloads := downloads w |}).
  { destruct Hfailure as [Herror | (Herror & Hdata & Hbad & ->)].
    - now apply reportClick_failed.
    - now apply (reportClick_invalid_date format_date Number_toString w orders). }
  rewrite Hworld. cbn [downloads console toasts ui QuickActions.isGeneratingReport].
  rewrite <- app_assoc.
  repeat split.
  - intros Hmessage. cbn. destruct (message e); [contradiction | reflexivity].
  - intros Hmessage. cbn. now rewrite Hmessage.
Qed.

End EveryReport.

Lemma report_failure_witness :
  let w := Sample.fresh (Sample.shop [Some {| message := "" |}]) Sample.idle in
  downloads (QuickActions.reportClick Sample.format_utc Sample.print_250 w) = []
  /\ map description (toasts (QuickActions.reportClick Sample.format_utc Sample.print_250 w))
     = ["Please wait while we fetch and process the order data.";
        "An unexpected error occurred."].
Proof.
  intros w.
  pose proof (report_failure Sample.format_utc Sample.print_250 w {| message := "" |} []
                (or_introl eq_refl)) as (Hfiles & _ & Htoasts & _).
  split; [exact Hfiles|]. rewrite Htoasts. reflexivity.
Defined.

Section ReadingTheReportBack.

Lemma one_line_free_of (s : string) : Spec.one_line s = Spec.free_of (ascii_of_nat 10) s.
Proof. induction s as [|a s IH]; cbn [Spec.one_line Spec.free_of]; [reflexivity | now rewrite IH]. Qed.

Lemma split_on_free (c : ascii) (x : string) :
  Spec.free_of c x = true -> Js.split_on c x = [x].
Proof.
  induction x as [|a x IH]; cbn [Js.split_on Spec.free_of]; [reflexivity|].
  rewrite andb_true_iff, negb_true_iff. intros [Ha Hx]. now rewrite Ha, (IH Hx).
Qed.

Lemma split_on_app (c : ascii) (x rest : string) :
  Spec.free_of c x = true ->
  Js.split_on c (x ++ String c "" ++ rest) = x :: Js.split_on c rest.
Proof.
  induction x as [|a x IH]; cbn [Js.split_on Spec.free_of String.append].
  - intros _. now rewrite Ascii.eqb_refl.
  - rewrite andb_true_iff, negb_true_iff. intros [Ha Hx].
    rewrite Ha. cbn [String.append] in IH. now rewrite (IH Hx).
Qed.

(** Splitting undoes joining when no piece holds the separator. *)
Lemma split_on_join (c : ascii) (l : list string) :
  l <> [] ->
  forallb (Spec.free_of c) l = true ->
  Js.split_on c (Js.join (String c "") l) = l.
Proof.
  induction l as [|x [|y rest] IH]; intros Hne; [contradiction| |];
    cbn [Js.join forallb]; rewrite andb_true_iff; intros [Hx Hrest].
  - now apply split_on_free.
  - rewrite split_on_app by assumption. f_equal. now apply IH.
Qed.

Lemma split_on_length (c : ascii) (s : string) :
  List.length (Js.split_on c s) = Datatypes.S (Spec.count_char c s).
Proof.
  induction s as [|a s IH]; cbn [Js.split_on Spec.count_char]; [reflexivity|].
  destruct (Ascii.eqb a c); cbn [List.length Nat.add]; [now rewrite IH|].
  destruct (Js.split_on c s) as [|piece pieces]; cbn in *; lia.
Qed.

Lemma count_char_app (c : ascii) (a b : string) :
  Spec.count_char c (a ++ b) = (Spec.count_char c a + Spec.count_char c b)%nat.
Proof.
  induction a as [|x a IH]; cbn [String.append Spec.count_char]; [reflexivity|].
  rewrite IH. lia.
Qed.

Lemma count_char_join (c : ascii) (l : list string) :
  l <> [] ->
  Spec.count_char c (Js.join (String c "") l)
  = (List.length l - 1 + list_sum (map (Spec.count_char c) l))%nat.
Proof.
  induction l as [|x [|y rest] IH]; intros Hne; [contradiction| |].
  - cbn. lia.
  - change (Js.join (String c "") (x :: y :: rest))
      with (x ++ String c "" ++ Js.join (String c "") (y :: rest))%string.
    rewrite !count_char_app, IH by discriminate.
    cbn [Spec.count_char List.length map list_sum fold_right].
    rewrite Ascii.eqb_refl. lia.
Qed.

Variable Number_toString : number -> string.

Lemma report_text_reads_back (orders : list OrderReportData) (dates : list string)
    (Hplain :
       forallb (fun od =>
                  forallb (fun field =>
                             Spec.free_of (ascii_of_nat 44) field && Spec.one_line field)
                          (QuickActions.fields Number_toString (fst od) (snd od)))
               (combine orders dates) = true) :
  map Spec.columns
    (Spec.lines
       (Js.join QuickActions.newline
          (Js.join "," QuickActions.headers :: Spec.report_rows Number_toString orders dates)))
  = QuickActions.headers
    :: map (fun od => QuickActions.fields Number_toString (fst od) (snd od))
           (combine orders dates).
Proof.
  assert (Hrows : forallb Spec.one_line (Spec.report_rows Number_toString orders dates) = true).
  { apply report_rows_one_line.
    induction (combine orders dates) as [|od l IH]; [reflexivity|].
    cbn [forallb] in Hplain |- *. apply andb_true_iff in Hplain. destruct Hplain as [Hod Hl].
    rewrite (IH Hl), andb_true_r.
    induction (QuickActions.fields Number_toString (fst od) (snd od)) as [|f fs IHf];
      [reflexivity|].
    cbn [forallb] in Hod |- *. rewrite !andb_true_iff in Hod.
    destruct Hod as [[_ Hline] Hfs]. now rewrite Hline, (IHf Hfs). }
  rewrite lines_join; [|discriminate|cbn [forallb]; now rewrite Hrows].
  cbn [map]. f_equal.
  unfold Spec.report_rows. rewrite map_map.
  induction (combine orders dates) as [|od l IH]; [reflexivity|].
  cbn [forallb map] in Hplain |- *. apply andb_true_iff in Hplain. destruct Hplain as [Hod Hl].
  rewrite (IH Hl). f_equal.
  unfold Spec.columns. apply (split_on_join (ascii_of_nat 44)); [discriminate|].
  induction (QuickActions.fields Number_toString (fst od) (snd od)) as [|f fs IHf];
    [reflexivity|].
  cbn [forallb] in Hod |- *. rewrite !andb_true_iff in Hod.
  destruct Hod as [[Hcomma _] Hfs]. now rewrite Hcomma, (IHf Hfs).
Qed.

(** X25: nothing is escaped: a row has six columns plus one for every
    comma that its fields hold, so a comma in a customer name shifts the
    columns after it. *)
Theorem row_columns_count_commas (order : OrderReportData) (date : string) :
  List.length (Spec.columns (Js.join "," (QuickActions.fields Number_toString order date)))
  = (6 + list_sum (map (Spec.count_char (ascii_of_nat 44))
                       (QuickActions.fields Number_toString order date)))%nat.
Proof.
  unfold Spec.columns. rewrite split_on_length.
  rewrite (count_char_join (ascii_of_nat 44)) by discriminate.
  reflexivity.
Qed.

(** X26: the report can be read back.  When the read returns orders
    whose dates format and no field of any order holds a comma or a line
    break, splitting the text of the file into lines and each line at
    the commas gives the header names followed, order by order, by the
    six fields that were written. *)
Theorem report_reads_back {B : Type} `{Backend B}
    (format_date : string -> option string) (w : World B QuickActions.State)
    (orders : list OrderReportData) (dates : list string)
    (Herror : Postgrest.error (fst (serve orders_select_report (backend w))) = None)
    (Hdata : Postgrest.data (fst (serve orders_select_report (backend w))) = Some orders)
    (Hsome : orders <> [])
    (Hdates : map (fun order => format_date (report_order_date order)) orders = map Some dates)
    (Hplain :
       forallb (fun od =>
                  forallb (fun field =>
                             Spec.free_of (ascii_of_nat 44) field && Spec.one_line field)
                          (QuickActions.fields Number_toString (fst od) (snd od)))
               (combine orders dates) = true) :
  map (fun d => map Spec.columns (Spec.lines (blob_text d)))
      (downloads (QuickActions.reportClick format_date Number_toString w))
  = map (fun d => map Spec.columns (Spec.lines (blob_text d))) (downloads w)
    ++ [QuickActions.headers
        :: map (fun od => QuickActions.fields Number_toString (fst od) (snd od))
               (combine orders dates)].
Proof.
  rewrite (reportClick_rows format_date Number_toString w orders dates
             Herror Hdata Hsome Hdates).
  cbn [downloads]. rewrite map_app. cbn [map blob_text]. f_equal. f_equal.
  apply (report_text_reads_back orders dates Hplain).
Qed.

End ReadingTheReportBack.

Lemma report_reads_back_witness :
  let w := Sample.fresh (Sample.store (Sample.numbered 2) [] [] []) Sample.idle in
  map (fun d => map Spec.columns (Spec.lines (blob_text d)))
      (downloads (QuickActions.reportClick Sample.format_utc Sample.print_250 w))
  = [[["Order ID"; "Customer Name"; "Customer Email"; "Order Date"; "Status"; "Total Amount"];
      ["A"; "Asha"; "asha@example.com"; "2024-05-01 10:00:00"; "pending"; "250"];
      ["B"; "Asha"; "asha@example.com"; "2024-05-01 10:00:00"; "pending"; "250"]]].
Proof.
  intros w.
  exact (report_reads_back Sample.print_250 Sample.format_utc w
           (map Tables.to_report (Sample.numbered 2))
           ["2024-05-01 10:00:00"; "2024-05-01 10:00:00"]
           eq_refl eq_refl ltac:(discriminate) eq_refl eq_refl).
Defined.

(* ===================================================================== *)
(** * Further properties: what a row of the recent orders shows           *)
(* ===================================================================== *)

Section ShownStrings.

Lemma substring_all (s : string) : substring 0 (String.length s) s = s.
Proof. induction s as [|a s IH]; cbn; [reflexivity | now rewrite IH]. Qed.

Lemma string_length_app (a b : string) :
  String.length (a ++ b) = (String.length a + String.length b)%nat.
Proof. induction a as [|x a IH]; cbn; [reflexivity | now rewrite IH]. Qed.

Lemma substring_tail (k : nat) (s : string) :
  (k <= String.length s)%nat ->
  exists pre, s = (pre ++ substring k (String.length s - k) s)%string
              /\ String.length pre = k.
Proof.
  revert s; induction k as [|k IH]; intros s Hk.
  - exists "". rewrite Nat.sub_0_r, substring_all. auto.
  - destruct s as [|a s]; [cbn in Hk; lia|].
    cbn [String.length] in Hk. destruct (IH s ltac:(lia)) as (pre & Hs & Hpre).
    exists (String a pre). cbn [String.length Nat.sub substring String.append].
    rewrite <- Hs. auto.
Qed.

(** X27: the identifier shown in a row of the recent orders is the end
    of the order's identifier: its last eight characters, or all of it
    when it has eight characters or fewer. *)
Theorem shownId_is_the_end (id : string) :
  (exists pre, id = (pre ++ RecentOrders.shownId id)%string)
  /\ String.length (RecentOrders.shownId id) = Nat.min 8 (String.length id)
  /\ ((String.length id <= 8)%nat -> RecentOrders.shownId id = id).
Proof.
  unfold RecentOrders.shownId, JsString.slice, Js.relative_index.
  change (-8 <? 0) with true. cbv iota.
  set (len := String.length id).
  replace (Z.to_nat (Z.max (Z.of_nat len + -8) 0)) with (len - 8)%nat by lia.
  replace (Z.to_nat (Z.of_nat len - Z.max (Z.of_nat len + -8) 0))
    with (len - (len - 8))%nat by lia.
  destruct (substring_tail (len - 8) id ltac:(unfold len; lia)) as (pre & Hid & Hpre).
  fold len in Hid.
  split; [now exists pre|]. split.
  - apply (f_equal String.length) in Hid. rewrite string_length_app, Hpre in Hid.
    fold len in Hid. lia.
  - intros Hshort. replace (len - 8)%nat with 0%nat by lia.
    rewrite Nat.sub_0_r. apply substring_all.
Qed.

Lemma shownId_is_the_end_witness :
  (String.length "ord-0001" <= 8)%nat /\ RecentOrders.shownId "ord-0001" = "ord-0001".
Proof.
  assert (Hshort : (String.length "ord-0001" <= 8)%nat) by (cbn; lia).
  split; [exact Hshort|].
  exact (proj2 (proj2 (shownId_is_the_end "ord-0001")) Hshort).
Defined.

Lemma string_app_nil_r (s : string) : (s ++ "")%string = s.
Proof. induction s as [|a s IH]; cbn; [reflexivity | now rewrite IH]. Qed.

Lemma charAt_first (a : ascii) (s : string) :
  JsString.charAt (String a s) 0 = String a "".
Proof. unfold JsString.charAt. destruct s; reflexivity. Qed.

Lemma slice_after_first (a : ascii) (s : string) :
  JsString.slice (String a s) 1 = s.
Proof.
  unfold JsString.slice, Js.relative_index. cbn [String.length].
  destruct (Z.ltb_spec 1 0) as [Hneg|_]; [lia|].
  replace (Z.to_nat (Z.min 1 (Z.of_nat (Datatypes.S (String.length s))))) with 1%nat by lia.
  replace (Z.to_nat (Z.of_nat (Datatypes.S (String.length s))
                     - Z.min 1 (Z.of_nat (Datatypes.S (String.length s)))))
    with (String.length s) by lia.
  cbn [substring]. apply substring_all.
Qed.

Lemma shownStatus_cons (a : ascii) (s : string) :
  RecentOrders.shownStatus (String a s)
  = match JsString.upper_char a with
    | Some initial => Some (initial ++ s)%string
    | None => None
    end.
Proof.
  unfold RecentOrders.shownStatus. rewrite charAt_first, slice_after_first.
  cbn [JsString.toUpperCase].
  destruct (JsString.upper_char a) as [initial|]; [|reflexivity].
  now rewrite string_app_nil_r.
Qed.

(** A character whose upper-casing is one character is the same letter
    as that character. *)
Lemma upper_char_single (a u : ascii) :
  JsString.upper_char a = Some (String u "") -> Spec.same_letter u a.
Proof.
  pose proof (nat_ascii_bounded a) as Hbound.
  unfold JsString.upper_char, Spec.same_letter, Spec.capital. cbv zeta.
  set (n := nat_of_ascii a) in *.
  destruct (((97 <=? n)%nat && (n <=? 122)%nat)
            || ((224 <=? n)%nat && (n <=? 246)%nat)
            || ((248 <=? n)%nat && (n <=? 254)%nat))%bool eqn:Hsmall.
  - intros Hu. injection Hu as <-. right. left.
    rewrite nat_ascii_embedding by lia. split; [|by_codes].
    by_codes; reflexivity.
  - destruct (n =? 223)%nat; [discriminate|].
    destruct ((n =? 181)%nat || (n =? 255)%nat)%bool; [discriminate|].
    intros Hu. injection Hu as <-. now left.
Qed.

Lemma same_ignoring_case_refl (s : string) : Spec.same_ignoring_case s s.
Proof. induction s as [|a s IH]; cbn; [exact I | split; [now left | exact IH]]. Qed.

(** X28: the status shown in a row of the recent orders is the status
    with its first character upper-cased and the rest kept as it is.
    For the five statuses it is the text of the badge the order list
    shows; the empty string stays empty; a first character whose
    upper-casing is one character is replaced by it, which changes at
    most its case; a leading sharp s becomes the two letters SS. *)
Theorem shownStatus_capitalises :
  (forall s : OrderStatus,
      RecentOrders.shownStatus (status_text s)
      = Some (OrdersPage.label (OrdersPage.getStatusBadge s)))
  /\ RecentOrders.shownStatus "" = Some ""
  /\ (forall a u rest,
        JsString.upper_char a = Some (String u "") ->
        RecentOrders.shownStatus (String a rest) = Some (String u rest)
        /\ Spec.same_ignoring_case (String u rest) (String a rest))
  /\ (forall rest,
        RecentOrders.shownStatus (String (ascii_of_nat 223) rest)
        = Some ("SS" ++ rest)%string).
Proof.
  split; [intros []; reflexivity|]. split; [reflexivity|]. split.
  - intros a u rest Hupper. rewrite shownStatus_cons, Hupper. split; [reflexivity|].
    cbn [Spec.same_ignoring_case].
    split; [now apply upper_char_single | apply same_ignoring_case_refl].
  - intros rest. now rewrite shownStatus_cons.
Qed.

Lemma shownStatus_capitalises_witness :
  JsString.upper_char "p" = Some "P"
  /\ RecentOrders.shownStatus "paid" = Some "Paid".
Proof.
  split; [reflexivity|].
  exact (proj1 (proj1 (proj2 (proj2 shownStatus_capitalises)) "p"%char "P"%char "aid" eq_refl)).
Defined.

End ShownStrings.

Section EnabledButton.

Context {B : Type} `{Backend B}.

(** X29: while the "Add to Cart" button is enabled the product is in
    stock and no click is being handled, so a click on it never raises
    "Out of Stock": it raises exactly one toast, and that toast is
    another one. *)
Theorem enabled_button_never_out_of_stock
    (props : ProductCard.Props) (user : option AuthContext.User)
    (w : World B ProductCard.State)
    (Henabled : ProductCard.addToCartDisabled props (ui w) = false) :
  ProductCard.inStock props = true
  /\ ProductCard.isAddingToCart (ui w) = false
  /\ exists t, toasts (ProductCard.cartClick props user w) = toasts w ++ [t]
               /\ title t <> title ProductCard.out_of_stock.
Proof.
  unfold ProductCard.addToCartDisabled in Henabled.
  apply orb_false_iff in Henabled. destruct Henabled as [Hstock Hidle].
  apply negb_false_iff in Hstock.
  split; [exact Hstock|]. split; [exact Hidle|].
  destruct user as [user|].
  - pose proof (cartClick_cases props w user Hstock) as Hcases. cbv zeta in Hcases.
    rewrite Hcases. clear Hcases.
    destruct (Postgrest.error _) as [e|]; [eexists; split; [reflexivity | discriminate]|].
    destruct (Postgrest.data _) as [row|]; [eexists; split; [reflexivity | discriminate]|].
    destruct (Postgrest.error _) as [e|]; eexists; split; try reflexivity; discriminate.
  - exists (ProductCard.login_required "cart"). split; [reflexivity | discriminate].
Qed.

End EnabledButton.

Lemma enabled_button_never_out_of_stock_witness :
  let w := Sample.fresh (Sample.store [] [] [] []) (Sample.card false) in
  ProductCard.addToCartDisabled Sample.kettle (ui w) = false
  /\ ProductCard.inStock Sample.kettle = true.
Proof.
  intros w. split; [reflexivity|].
  exact (proj1 (enabled_button_never_out_of_stock Sample.kettle (Some Sample.asha) w eq_refl)).
Defined.
